(** * SMS Mail Forwarder: the screens of the mobile front end

    A shallow embedding of the six React Native screens (dashboard, email
    configuration, filters, logs, settings, test SMS): every event handler is
    a computation in a small exception/state/trace monad, run against a host
    that answers [fetch] and [AsyncStorage] calls.  The properties proved at
    the end of the file are about the traces and final states of these
    handlers. *)

From Stdlib Require Import ZArith QArith Qround Ascii String Lia Lqa.
From stdpp Require Import base strings gmap list pretty.

Set Warnings "-register-all,-clear-no-such-hyp".
Local Open Scope Z_scope.

(** ** JavaScript values *)

Module JS.

(** A Number: not-a-number, an infinity, or a finite value.  Every finite
    double is a rational, so finite numbers are rationals here. *)
Inductive number :=
| NaN
| Infinity (negative : bool)
| Finite (q : Q).

(** What [response.json()], [JSON.parse] and the component state hold.  An
    object is a finite map from property names to values. *)
Inductive value :=
| VUndefined
| VNull
| VBool (b : bool)
| VNum (n : number)
| VStr (s : string)
| VArr (items : list value)
| VObj (props : gmap string value).

Definition VInt (z : Z) : value := VNum (Finite (inject_Z z)).

(** What a [throw] or a rejected promise carries: an [Error] object (for
    which [error instanceof Error] holds) or any other value. *)
Inductive thrown :=
| ErrorObj (message : string)
| NonError (v : value).

(** Pure expressions that may throw. *)
Definition result (A : Type) : Type := thrown + A.

(** ToBoolean. *)
Definition truthy (v : value) : bool :=
  match v with
  | VUndefined | VNull => false
  | VBool b => b
  | VNum NaN => false
  | VNum (Infinity _) => true
  | VNum (Finite q) => negb (Qeq_bool q 0)
  | VStr s => negb (bool_decide (s = ""))
  | VArr _ | VObj _ => true
  end.

(** [a || b] *)
Definition or_else (a b : value) : value := if truthy a then a else b.

(** [v === 'literal'] *)
Definition is_str (v : value) (lit : string) : bool :=
  match v with
  | VStr s => bool_decide (s = lit)
  | _ => false
  end.

(** [o.k] on an object held as a map: a missing property reads [undefined]. *)
Definition prop (o : gmap string value) (k : string) : value :=
  default VUndefined (o !! k).

(** [v.k] on any value.  Reading a property of [null] or [undefined] throws a
    TypeError whose text is the engine's ([type_error k]); arrays and strings
    have a [length]; no other inherited property is read by the screens. *)
Definition getProp (type_error : string -> string) (v : value) (k : string) : result value :=
  match v with
  | VUndefined | VNull => inl (ErrorObj (type_error k))
  | VObj o => inr (prop o k)
  | VArr items => inr (if bool_decide (k = "length") then VInt (Z.of_nat (length items)) else VUndefined)
  | VStr s => inr (if bool_decide (k = "length") then VInt (Z.of_nat (String.length s)) else VUndefined)
  | VBool _ | VNum _ => inr VUndefined
  end.

(** The own enumerable properties copied by [{...v}]. *)
Definition spread (v : value) : gmap string value :=
  match v with
  | VObj o => o
  | VArr items => list_to_map (imap (fun i x => (pretty i, x)) items)
  | VStr s => list_to_map (imap (fun i c => (pretty i, VStr (String c ""))) (list_ascii_of_string s))
  | VUndefined | VNull | VBool _ | VNum _ => ∅
  end.

(** *** Strings

    A string is a sequence of characters with codes below 256. *)

(** WhiteSpace and LineTerminator characters in that range: TAB, LF, VT, FF,
    CR, SP and NBSP. *)
Definition is_whitespace (c : ascii) : bool :=
  let n := N_of_ascii c in
  ((9 <=? n) && (n <=? 13) || (n =? 32) || (n =? 160))%N.

Fixpoint trimStart (s : string) : string :=
  match s with
  | EmptyString => EmptyString
  | String c rest => if is_whitespace c then trimStart rest else s
  end.

Fixpoint trimEnd (s : string) : string :=
  match s with
  | EmptyString => EmptyString
  | String c rest =>
      match trimEnd rest with
      | EmptyString => if is_whitespace c then EmptyString else String c EmptyString
      | kept => String c kept
      end
  end.

(** [s.trim()] *)
Definition trim (s : string) : string := trimEnd (trimStart s).

(** *** parseInt *)

Definition digit_value (c : ascii) : option Z :=
  let n := Z.of_N (N_of_ascii c) in
  if (48 <=? n) && (n <=? 57) then Some (n - 48)
  else if (97 <=? n) && (n <=? 102) then Some (n - 87)
  else if (65 <=? n) && (n <=? 70) then Some (n - 55)
  else None.

Definition radix_digit (radix : Z) (c : ascii) : option Z :=
  match digit_value c with
  | Some d => if d <? radix then Some d else None
  | None => None
  end.

(** The longest prefix of radix digits, read left to right: [None] when the
    first character is not a digit, otherwise the integer so far. *)
Fixpoint parse_digits (radix : Z) (acc : option Z) (s : string) : option Z :=
  match s with
  | EmptyString => acc
  | String c rest =>
      match radix_digit radix c with
      | Some d => parse_digits radix (Some (default 0 acc * radix + d)) rest
      | None => acc
      end
  end.

Definition strip_sign (s : string) : Z * string :=
  match s with
  | String "-" rest => (-1, rest)
  | String "+" rest => (1, rest)
  | _ => (1, s)
  end.

Definition strip_hex_prefix (s : string) : Z * string :=
  match s with
  | String "0" (String "x" rest) => (16, rest)
  | String "0" (String "X" rest) => (16, rest)
  | _ => (10, s)
  end.

(** [parseInt(text)] with no radix argument: leading white space is skipped,
    then an optional sign, then an optional [0x] prefix, then the longest run
    of digits.  The integer is exact here; beyond 2^53 an engine rounds it to
    the nearest double, which keeps a nonzero value nonzero. *)
Definition parseInt (text : string) : number :=
  let '(sign, unsigned) := strip_sign (trimStart text) in
  let '(radix, digits) := strip_hex_prefix unsigned in
  match parse_digits radix None digits with
  | None => NaN
  | Some n => Finite (inject_Z (sign * n))
  end.

(** *** Math.round and printing *)

(** The integer closest to [q], the larger one on a tie. *)
Definition round_half_up (q : Q) : Z := Qfloor (q + (1 # 2)).

Definition Math_round (n : number) : number :=
  match n with
  | Finite q => Finite (inject_Z (round_half_up q))
  | other => other
  end.

(** An integral number, if [q] is one. *)
Definition integral (q : Q) : option Z :=
  if Qeq_bool q (inject_Z (Qfloor q)) then Some (Qfloor q) else None.

(** Number-to-string as a template literal does it.  Covered: [NaN], the
    infinities and integers below 10^21 in magnitude, printed in decimal.  Not
    covered ([None]): fractions and larger values, whose digits depend on
    the double representation. *)
Definition Number_toString (n : number) : option string :=
  match n with
  | NaN => Some "NaN"
  | Infinity false => Some "Infinity"
  | Infinity true => Some "-Infinity"
  | Finite q =>
      match integral q with
      | Some z => if Z.abs z <? 10 ^ 21 then Some (pretty z) else None
      | None => None
      end
  end.

End JS.

(** ** The host: network, storage and engine *)

Module Host.
Import JS.

Inductive method := GET | POST | PUT | DELETE.

(** [body] is the value handed to [JSON.stringify] for the request body. *)
Record request := Request {
  req_method : method;
  req_url : string;
  req_body : option value;
}.

(** A settled response: its [ok] flag and what [response.json()] settles to. *)
Record response := Response {
  ok : bool;
  json : result value;
}.

(** Everything the screens take from outside.  A promise is modelled by what
    it settles to, so [net] gives the settled outcome of a [fetch] (a
    rejection or a response), and likewise for the [AsyncStorage] calls. *)
Record host := {
  EXPO_PUBLIC_BACKEND_URL : value;      (* Constants.expoConfig?.extra?.EXPO_PUBLIC_BACKEND_URL *)
  Platform_OS : string;
  net : request -> result response;
  getItem : string -> result (option string);
  setItem : string -> string -> result unit;
  multiRemove : list string -> result unit;
  JSON_parse : string -> result value;
  JSON_stringify : value -> string;
  ToString_other : value -> string;     (* ToString of numbers, arrays and objects *)
  type_error : string -> string;        (* message of a TypeError raised on member k *)
  Date_toDateString : value -> string;  (* new Date(v).toDateString() *)
  today : string;                       (* new Date().toDateString() *)
  now_iso : string;                     (* new Date().toISOString() *)
}.

(** ToString, as a template literal or [new Error(v)] applies it. *)
Definition ToString (h : host) (v : value) : string :=
  match v with
  | VStr s => s
  | VUndefined => "undefined"
  | VNull => "null"
  | VBool true => "true"
  | VBool false => "false"
  | VNum _ | VArr _ | VObj _ => ToString_other h v
  end.

Definition backendUrl (h : host) : string :=
  ToString h (or_else (EXPO_PUBLIC_BACKEND_URL h) (VStr "http://localhost:8001")).

(** What a handler does to the outside, in order. *)
Inductive event :=
| EFetch (m : method) (url : string) (body : option value)
| EAlert (title : string) (message : value) (buttons : list string)
| EConsoleError (label : string) (error : thrown)
| EGetItem (key : string)
| ESetItem (key : string) (item : string)
| EMultiRemove (keys : list string)
| ERouterPush (path : string)
| ERouterBack
| EOpenSettings.

End Host.

(** ** Handlers as computations *)

Module Eff.
Import JS Host.

(** The run of a handler from a component state: the events in order, the
    state the setters leave, and whether it returned or threw. *)
Record run (St A : Type) := Run {
  events : list event;
  final : St;
  outcome : result A;
}.
Arguments Run {St A} _ _ _.
Arguments events {St A} _.
Arguments final {St A} _.
Arguments outcome {St A} _.

Definition M (St A : Type) : Type := St -> run St A.

Section Ops.
Context {St : Type}.

Definition ret {A} (a : A) : M St A := fun s => Run [] s (inr a).

Definition bind {A B} (m : M St A) (k : A -> M St B) : M St B := fun s =>
  match m s with
  | Run t s1 (inl e) => Run t s1 (inl e)
  | Run t s1 (inr a) =>
      match k a s1 with
      | Run t' s2 o => Run (t ++ t') s2 o
      end
  end.

Definition throw {A} (e : thrown) : M St A := fun s => Run [] s (inl e).

(** A pure expression that may throw; also [await] of a promise, which
    throws what the promise rejected with. *)
Definition lift {A} (r : result A) : M St A := fun s => Run [] s r.
Definition await {A} (promise : result A) : M St A := lift promise.

(** [try { m } catch (e) { c e }] *)
Definition try_catch {A} (m : M St A) (c : thrown -> M St A) : M St A := fun s =>
  match m s with
  | Run t s1 (inl e) =>
      match c e s1 with
      | Run t' s2 o => Run (t ++ t') s2 o
      end
  | Run t s1 (inr a) => Run t s1 (inr a)
  end.

(** [try { m } finally { f }]: [f] runs on both exits; if it throws, that
    replaces the outcome of [m]. *)
Definition finally {A} (m : M St A) (f : M St unit) : M St A := fun s =>
  match m s with
  | Run t s1 o =>
      match f s1 with
      | Run t' s2 (inl e) => Run (t ++ t') s2 (inl e)
      | Run t' s2 (inr _) => Run (t ++ t') s2 o
      end
  end.

Definition emit (e : event) : M St unit := fun s => Run [e] s (inr tt).

(** A state setter. *)
Definition set (f : St -> St) : M St unit := fun s => Run [] (f s) (inr tt).

End Ops.

#[global] Instance M_ret {St} : MRet (M St) := fun _ a => ret a.
#[global] Instance M_bind {St} : MBind (M St) := fun _ _ k m => bind m k.

Section Calls.
Context {St : Type} (h : host).

(** [fetch(url, {method, body})]: the request goes out and a promise comes
    back; nothing is thrown before the promise is awaited. *)
Definition fetch (m : method) (url : string) (body : option value) : M St (result response) :=
  emit (EFetch m url body) ;; ret (net h (Request m url body)).

Definition AsyncStorage_getItem (key : string) : M St (result (option string)) :=
  emit (EGetItem key) ;; ret (getItem h key).

Definition AsyncStorage_setItem (key item : string) : M St (result unit) :=
  emit (ESetItem key item) ;; ret (setItem h key item).

Definition AsyncStorage_multiRemove (keys : list string) : M St (result unit) :=
  emit (EMultiRemove keys) ;; ret (multiRemove h keys).

Definition Alert_alert (title : string) (message : value) (buttons : list string) : M St unit :=
  emit (EAlert title message buttons).

Definition console_error (label : string) (error : thrown) : M St unit :=
  emit (EConsoleError label error).

(** [v.k] inside a handler. *)
Definition get (v : value) (k : string) : M St value := lift (getProp (type_error h) v k).

(** [new Error(v)] *)
Definition new_Error (v : value) : thrown := ErrorObj (ToString h v).

End Calls.

(** [Promise.all] of two and of three promises.  When several reject, the
    one listed first is taken; the handlers only log it. *)
Definition Promise_all2 {A B} (p : result A) (q : result B) : result (A * B) :=
  match p, q with
  | inl e, _ => inl e
  | _, inl e => inl e
  | inr a, inr b => inr (a, b)
  end.

Definition Promise_all3 {A B C} (p : result A) (q : result B) (r : result C) : result (A * B * C) :=
  Promise_all2 (Promise_all2 p q) r.

(** [error instanceof Error ? error.message : fallback] *)
Definition message_or (error : thrown) (fallback : string) : value :=
  match error with
  | ErrorObj message => VStr message
  | NonError _ => VStr fallback
  end.

End Eff.

(** ** Email configuration screen *)

Module EmailConfigScreen.
Import JS Host Eff.

(** The component state.  [config] is whatever object the setters were
    given: its type annotation is not checked when the server's object is
    spread into it, so it is a map of properties.  [activeTab] likewise
    holds what [setActiveTab] was given. *)
Record state := State {
  activeTab : value;
  config : gmap string value;
  loading : bool;
  testLoading : bool;
}.

Definition initial_config : gmap string value :=
  <["email_type" := VStr "smtp"]> (
  <["smtp_server" := VStr ""]> (
  <["smtp_port" := VInt 587]> (
  <["smtp_username" := VStr ""]> (
  <["smtp_password" := VStr ""]> (
  <["use_tls" := VBool true]> (
  <["recipient_email" := VStr ""]> (
  <["sender_name" := VStr "SMS Forwarder"]> ∅))))))).

Definition initial : state := State (VStr "smtp") initial_config false false.

Definition setActiveTab (v : value) : M state unit :=
  set (fun s => State v (config s) (loading s) (testLoading s)).
Definition setConfig (c : gmap string value) : M state unit :=
  set (fun s => State (activeTab s) c (loading s) (testLoading s)).
Definition setLoading (b : bool) : M state unit :=
  set (fun s => State (activeTab s) (config s) b (testLoading s)).
Definition setTestLoading (b : bool) : M state unit :=
  set (fun s => State (activeTab s) (config s) (loading s) b).

Section Handlers.
Context (h : host).

(** The handlers close over the state of the render they were created in:
    [s] below is that state, and the setters act on the state being built. *)

Definition loadEmailConfig_catch (error : thrown) : M state unit :=
  console_error "Failed to load email config:" error.

Definition loadEmailConfig : M state unit :=
  try_catch
    (promise ← fetch h GET (backendUrl h +:+ "/api/email/config") None;
     response ← await promise;
     data ← await (json response);
     status ← get h data "status";
     if is_str status "configured" then
       data_config ← get h data "config";
       if truthy data_config then
         setConfig (<["smtp_password" := VStr ""]> (spread data_config)) ;;
         email_type ← get h data_config "email_type";
         setActiveTab (or_else email_type (VStr "smtp"))
       else mret tt
     else mret tt)
    loadEmailConfig_catch.

Definition saveEmailConfig_catch (error : thrown) : M state unit :=
  Alert_alert "Error" (message_or error "Failed to save configuration") [].

Definition saveEmailConfig (s : state) : M state unit :=
  if negb (truthy (prop (config s) "recipient_email")) then
    Alert_alert "Validation Error" (VStr "Please enter a recipient email address") []
  else if is_str (activeTab s) "smtp"
          && (negb (truthy (prop (config s) "smtp_server"))
              || negb (truthy (prop (config s) "smtp_username"))
              || negb (truthy (prop (config s) "smtp_password"))) then
    Alert_alert "Validation Error" (VStr "Please fill in all SMTP fields") []
  else
    setLoading true ;;
    finally
      (try_catch
         (let configToSave := <["email_type" := activeTab s]> (config s) in
          promise ← fetch h POST (backendUrl h +:+ "/api/email/config") (Some (VObj configToSave));
          response ← await promise;
          result ← await (json response);
          if ok response then
            Alert_alert "Success" (VStr "Email configuration saved successfully") []
          else
            detail ← get h result "detail";
            throw (new_Error h (or_else detail (VStr "Failed to save configuration"))))
         saveEmailConfig_catch)
      (setLoading false).

Definition test_message : string :=
  "This is a test message from SMS Mail Forwarder to verify your email configuration is working correctly.".

Definition testEmailConfig_catch (error : thrown) : M state unit :=
  Alert_alert "Test Error" (message_or error "Failed to test email configuration") [].

Definition testEmailConfig (s : state) : M state unit :=
  if negb (truthy (prop (config s) "recipient_email")) then
    Alert_alert "Validation Error" (VStr "Please enter a recipient email address first") []
  else
    setTestLoading true ;;
    finally
      (try_catch
         (promise ← fetch h POST (backendUrl h +:+ "/api/email/test")
                      (Some (VObj (<["recipient_email" := prop (config s) "recipient_email"]> (
                                   <["test_message" := VStr test_message]> ∅))));
          response ← await promise;
          result ← await (json response);
          status ← get h result "status";
          if is_str status "sent" then
            Alert_alert "Test Successful" (VStr "Test email sent successfully! Check your inbox.") []
          else
            message ← get h result "message";
            Alert_alert "Test Failed" (or_else message (VStr "Failed to send test email")) [])
         testEmailConfig_catch)
      (setTestLoading false).

End Handlers.

(** The three preset buttons of the SMTP tab. *)
Inductive provider := gmail | outlook | yahoo.

Definition provider_name (p : provider) : string :=
  match p with gmail => "gmail" | outlook => "outlook" | yahoo => "yahoo" end.

Definition provider_title (p : provider) : string :=
  match p with gmail => "Gmail" | outlook => "Outlook" | yahoo => "Yahoo" end.

Definition presets : gmap string (gmap string value) :=
  <["gmail" := <["smtp_server" := VStr "smtp.gmail.com"]> (<["smtp_port" := VInt 587]> (<["use_tls" := VBool true]> ∅))]> (
  <["outlook" := <["smtp_server" := VStr "smtp-mail.outlook.com"]> (<["smtp_port" := VInt 587]> (<["use_tls" := VBool true]> ∅))]> (
  <["yahoo" := <["smtp_server" := VStr "smtp.mail.yahoo.com"]> (<["smtp_port" := VInt 587]> (<["use_tls" := VBool true]> ∅))]> ∅)).

(** [getProviderPresets(provider)] for the providers the buttons pass; the
    alert text capitalises the provider's name. *)
Definition getProviderPresets (p : provider) (s : state) : M state unit :=
  match presets !! provider_name p with
  | Some preset =>
      setConfig (preset ∪ config s) ;;
      Alert_alert "Preset Applied" (VStr (provider_title p +:+ " settings have been applied")) []
  | None => mret tt
  end.

(** The text inputs and the TLS checkbox: [setConfig({ ...config, k: v })]. *)
Definition onChangeField (k : string) (text : string) (s : state) : M state unit :=
  setConfig (<[k := VStr text]> (config s)).

(** The SMTP port input: [smtp_port: parseInt(text) || 587]. *)
Definition onChangePort (text : string) (s : state) : M state unit :=
  setConfig (<["smtp_port" := or_else (VNum (parseInt text)) (VInt 587)]> (config s)).

Definition onToggleTls (s : state) : M state unit :=
  setConfig (<["use_tls" := VBool (negb (truthy (prop (config s) "use_tls")))]> (config s)).

(** The tab buttons: ids [smtp], [emergent] and [device]. *)
Inductive tab := smtp | emergent | device.

Definition tab_id (t : tab) : string :=
  match t with smtp => "smtp" | emergent => "emergent" | device => "device" end.

Definition onPressTab (t : tab) : M state unit := setActiveTab (VStr (tab_id t)).

End EmailConfigScreen.

(** ** Dashboard *)

Module HomeScreen.
Import JS Host Eff.

Record DashboardStats := Stats {
  totalSMS : value;
  forwardedToday : value;
  activeFilters : value;
  emailConfigured : bool;
}.

Record state := State {
  stats : DashboardStats;
  isServiceRunning : bool;
}.

Definition initial : state :=
  State (Stats (VInt 0) (VInt 0) (VInt 0) false) false.

Definition setStats (d : DashboardStats) : M state unit :=
  set (fun s => State d (isServiceRunning s)).
Definition setIsServiceRunning (b : bool) : M state unit :=
  set (fun s => State (stats s) b).

(** [items.filter(keep)] where the callback may throw. *)
Fixpoint filter_items (keep : value -> result bool) (items : list value) : result (list value) :=
  match items with
  | [] => inr []
  | x :: rest =>
      match keep x with
      | inl e => inl e
      | inr b =>
          match filter_items keep rest with
          | inl e => inl e
          | inr kept => inr (if b then x :: kept else kept)
          end
      end
  end.

Section Handlers.
Context (h : host).

(** [v.filter(keep)]: only an array has a callable [filter]; what
    [JSON.parse] returns holds no functions. *)
Definition Array_filter (v : value) (keep : value -> result bool) : result (list value) :=
  match v with
  | VArr items => filter_items keep items
  | _ => inl (ErrorObj (type_error h "filter"))
  end.

(** [new Date(log.timestamp).toDateString() === today] *)
Definition is_today (log : value) : result bool :=
  match getProp (type_error h) log "timestamp" with
  | inl e => inl e
  | inr timestamp => inr (bool_decide (Date_toDateString h timestamp = today h))
  end.

(** A string from storage, or [null]. *)
Definition stored (item : option string) : value :=
  match item with Some text => VStr text | None => VNull end.

Definition parse_or_empty (item : option string) : result value :=
  if truthy (stored item) then JSON_parse h (default "" item) else inr (VArr []).

Definition loadDashboardData_catch (error : thrown) : M state unit :=
  console_error "Error loading dashboard data:" error.

(** Up to the first [await]: the three reads go out. *)
Definition loadDashboardData_begin
  : M state (result (option string * option string * option string)) :=
  emailConfig ← AsyncStorage_getItem h "email_config";
  filters ← AsyncStorage_getItem h "sms_filters";
  logs ← AsyncStorage_getItem h "sms_logs";
  mret (Promise_all3 emailConfig filters logs).

(** From the first [await] on. *)
Definition loadDashboardData_resume
  (pending : result (option string * option string * option string)) : M state unit :=
  try_catch
    ('(emailConfig, filters, logs) ← await pending;
     parsedFilters ← lift (parse_or_empty filters);
     parsedLogs ← lift (parse_or_empty logs);
     todayLogs ← lift (Array_filter parsedLogs is_today);
     parsedLogs_length ← get h parsedLogs "length";
     parsedFilters_length ← get h parsedFilters "length";
     setStats {| totalSMS := parsedLogs_length;
                 forwardedToday := VInt (Z.of_nat (length todayLogs));
                 activeFilters := parsedFilters_length;
                 emailConfigured := truthy (stored emailConfig) |})
    loadDashboardData_catch.

Definition loadDashboardData : M state unit :=
  pending ← loadDashboardData_begin; loadDashboardData_resume pending.

Definition checkServiceStatus_catch (error : thrown) : M state unit :=
  console_error "Error checking service status:" error.

Definition checkServiceStatus_begin : M state (result (option string)) :=
  AsyncStorage_getItem h "service_status".

Definition checkServiceStatus_resume (pending : result (option string)) : M state unit :=
  try_catch
    (serviceStatus ← await pending;
     setIsServiceRunning (is_str (stored serviceStatus) "running"))
    checkServiceStatus_catch.

Definition checkServiceStatus : M state unit :=
  pending ← checkServiceStatus_begin; checkServiceStatus_resume pending.

(** The mount effect calls both loaders without awaiting them: each runs
    up to its first [await], then each resumes. *)
Definition onMount : M state unit :=
  dashboard ← loadDashboardData_begin;
  service ← checkServiceStatus_begin;
  loadDashboardData_resume dashboard ;;
  checkServiceStatus_resume service.

Definition toggleService_catch (error : thrown) : M state unit :=
  Alert_alert "Error" (VStr "Failed to toggle service") [].

Definition toggleService (s : state) : M state unit :=
  try_catch
    (let newStatus := negb (isServiceRunning s) in
     written ← AsyncStorage_setItem h "service_status" (if newStatus then "running" else "stopped");
     await written ;;
     setIsServiceRunning newStatus ;;
     Alert_alert "Service Status"
       (VStr ("SMS forwarding service is now " +:+ (if newStatus then "running" else "stopped")))
       ["OK"])
    toggleService_catch.

Definition requestPermissions : M state unit :=
  if bool_decide (Platform_OS h = "android") then
    Alert_alert "Permissions Required"
      (VStr "This app needs SMS permissions to monitor and forward messages. Please grant permissions in the next screen.")
      ["Cancel"; "Grant Permissions"]
  else mret tt.

(** The [Grant Permissions] button of that alert. *)
Definition onGrantPermissions : M state unit := emit EOpenSettings.

End Handlers.

(** The four stat cards: title and displayed value. *)
Definition statCards (s : state) : list (string * value) :=
  [ ("Total SMS", totalSMS (stats s));
    ("Forwarded Today", forwardedToday (stats s));
    ("Active Filters", activeFilters (stats s));
    ("Email Status", VStr (if emailConfigured (stats s) then "Configured" else "Not Set")) ].

End HomeScreen.

(** ** Filters screen *)

Module FiltersScreen.
Import JS Host Eff.

(** The add/edit form.  The inputs put strings in it; [openEditModal] puts
    in it what the server's filter object holds. *)
Record FormData := Form {
  name : value;
  filter_type : value;
  filter_value : value;
}.

Record state := State {
  filters : value;
  loading : bool;
  modalVisible : bool;
  editingFilter : value;          (* SMSFilter | null *)
  formData : FormData;
}.

Definition empty_form : FormData := Form (VStr "") (VStr "all") (VStr "").

Definition initial : state := State (VArr []) true false VNull empty_form.

Definition setFilters (v : value) : M state unit :=
  set (fun s => State v (loading s) (modalVisible s) (editingFilter s) (formData s)).
Definition setLoading (b : bool) : M state unit :=
  set (fun s => State (filters s) b (modalVisible s) (editingFilter s) (formData s)).
Definition setModalVisible (b : bool) : M state unit :=
  set (fun s => State (filters s) (loading s) b (editingFilter s) (formData s)).
Definition setEditingFilter (v : value) : M state unit :=
  set (fun s => State (filters s) (loading s) (modalVisible s) v (formData s)).
Definition setFormData (f : FormData) : M state unit :=
  set (fun s => State (filters s) (loading s) (modalVisible s) (editingFilter s) f).

Section Handlers.
Context (h : host).

(** [v.trim()]: a method of strings only. *)
Definition call_trim (v : value) : result string :=
  match v with
  | VStr s => inr (trim s)
  | _ => inl (ErrorObj (type_error h "trim"))
  end.

(** [!v.trim()] *)
Definition blank (v : value) : M state bool :=
  trimmed ← lift (call_trim v); mret (bool_decide (trimmed = "")).

Definition loadFilters_catch (error : thrown) : M state unit :=
  console_error "Failed to load filters:" error ;;
  Alert_alert "Error" (VStr "Failed to load filters") [].

(** Up to the first [await]: the request goes out. *)
Definition loadFilters_begin : M state (result response) :=
  fetch h GET (backendUrl h +:+ "/api/filters") None.

(** From the first [await] on. *)
Definition loadFilters_resume (pending : result response) : M state unit :=
  finally
    (try_catch
       (response ← await pending;
        data ← await (json response);
        setFilters data)
       loadFilters_catch)
    (setLoading false).

Definition loadFilters : M state unit :=
  pending ← loadFilters_begin; loadFilters_resume pending.

Definition openAddModal : M state unit :=
  setEditingFilter VNull ;;
  setFormData empty_form ;;
  setModalVisible true.

Definition openEditModal (filter : value) : M state unit :=
  setEditingFilter filter ;;
  filter_name ← get h filter "name";
  type ← get h filter "filter_type";
  val ← get h filter "filter_value";
  setFormData (Form filter_name type (or_else val (VStr ""))) ;;
  setModalVisible true.

(** The payload of a create or an update. *)
Definition filterData (f : FormData) : gmap string value :=
  <["name" := name f]> (
  <["filter_type" := filter_type f]> (
  <["filter_value" := if is_str (filter_type f) "all" then VNull else filter_value f]> (
  <["enabled" := VBool true]> ∅))).

Definition saveFilter_catch (error : thrown) : M state unit :=
  Alert_alert "Error" (message_or error "Failed to save filter") [].

(** The body of the [try] of [saveFilter].  It returns the reload it
    started, if any: [loadFilters()] is not awaited, so the reload resumes
    once [saveFilter] is through. *)
Definition saveFilter_try (s : state) : M state (option (result response)) :=
  promise ←
    (if truthy (editingFilter s) then
       id ← get h (editingFilter s) "id";
       fetch h PUT (backendUrl h +:+ "/api/filters/" +:+ ToString h id)
             (Some (VObj (filterData (formData s))))
     else
       fetch h POST (backendUrl h +:+ "/api/filters")
             (Some (VObj (filterData (formData s)))));
  response ← await promise;
  if ok response then
    setModalVisible false ;;
    reload ← loadFilters_begin;
    Alert_alert "Success"
      (VStr ("Filter " +:+ (if truthy (editingFilter s) then "updated" else "created") +:+ " successfully")) [] ;;
    mret (Some reload)
  else
    error ← await (json response);
    detail ← get h error "detail";
    throw (new_Error h (or_else detail (VStr "Failed to save filter"))).

Definition resume_reload (reload : option (result response)) : M state unit :=
  match reload with
  | Some pending => loadFilters_resume pending
  | None => mret tt
  end.

Definition saveFilter (s : state) : M state unit :=
  no_name ← blank (name (formData s));
  if no_name : bool then
    Alert_alert "Validation Error" (VStr "Please enter a filter name") []
  else
    no_value ← (if is_str (filter_type (formData s)) "all" then mret false
                else blank (filter_value (formData s)));
    if no_value : bool then
      Alert_alert "Validation Error" (VStr "Please enter a filter value") []
    else
      reload ← try_catch (saveFilter_try s) (fun error => saveFilter_catch error ;; mret None);
      resume_reload reload.

Definition toggleFilter_catch (error : thrown) : M state unit :=
  Alert_alert "Error" (VStr "Failed to toggle filter") [].

Definition toggleFilter_try (filter : value) : M state (option (result response)) :=
  id ← get h filter "id";
  enabled ← get h filter "enabled";
  promise ← fetch h PUT (backendUrl h +:+ "/api/filters/" +:+ ToString h id)
                  (Some (VObj (<["enabled" := VBool (negb (truthy enabled))]> ∅)));
  response ← await promise;
  if ok response then
    reload ← loadFilters_begin; mret (Some reload)
  else
    throw (ErrorObj "Failed to toggle filter").

Definition toggleFilter (filter : value) : M state unit :=
  reload ← try_catch (toggleFilter_try filter) (fun error => toggleFilter_catch error ;; mret None);
  resume_reload reload.

Definition dquote : ascii := ascii_of_nat 34.

(** [deleteFilter] only asks; the request is sent by the [Delete] button of
    the alert. *)
Definition deleteFilter (filter : value) : M state unit :=
  filter_name ← get h filter "name";
  Alert_alert "Delete Filter"
    (VStr ("Are you sure you want to delete " +:+ String dquote (ToString h filter_name) +:+ String dquote "?"))
    ["Cancel"; "Delete"].

Definition onConfirmDelete_catch (error : thrown) : M state unit :=
  Alert_alert "Error" (VStr "Failed to delete filter") [].

Definition onConfirmDelete_try (filter : value) : M state (option (result response)) :=
  id ← get h filter "id";
  promise ← fetch h DELETE (backendUrl h +:+ "/api/filters/" +:+ ToString h id) None;
  response ← await promise;
  if ok response then
    reload ← loadFilters_begin;
    Alert_alert "Success" (VStr "Filter deleted successfully") [] ;;
    mret (Some reload)
  else
    throw (ErrorObj "Failed to delete filter").

Definition onConfirmDelete (filter : value) : M state unit :=
  reload ← try_catch (onConfirmDelete_try filter) (fun error => onConfirmDelete_catch error ;; mret None);
  resume_reload reload.

End Handlers.

(** The form inputs. *)
Definition onChangeName (text : string) (s : state) : M state unit :=
  setFormData (Form (VStr text) (filter_type (formData s)) (filter_value (formData s))).
Definition onChangeValue (text : string) (s : state) : M state unit :=
  setFormData (Form (name (formData s)) (filter_type (formData s)) (VStr text)).

(** The three type buttons. *)
Inductive filter_kind := all | sender | keyword.

Definition kind_id (k : filter_kind) : string :=
  match k with all => "all" | sender => "sender" | keyword => "keyword" end.

Definition onPressType (k : filter_kind) (s : state) : M state unit :=
  setFormData (Form (name (formData s)) (VStr (kind_id k)) (filter_value (formData s))).

Definition onCloseModal : M state unit := setModalVisible false.

End FiltersScreen.

(** ** Log viewer *)

Module LogsScreen.
Import JS Host Eff.

Record SMSLog := Log {
  id : string;
  sender : string;
  content : string;
  timestamp : string;
  forwarded : bool;
  forwarded_at : option string;
  email_status : string;
  error_message : option string;
}.

Record SMSStats := Stats {
  total_messages : number;
  forwarded_messages : number;
  failed_messages : number;
  today_messages : number;
  today_forwarded : number;
  forwarding_rate : number;
}.

(** [logs] and [stats] hold the parsed response bodies as they came. *)
Record state := State {
  logs : value;
  stats : value;
  loading : bool;
  refreshing : bool;
  filterStatus : string;
}.

Definition initial : state := State (VArr []) VNull true false "all".

Definition setLogs (v : value) : M state unit :=
  set (fun s => State v (stats s) (loading s) (refreshing s) (filterStatus s)).
Definition setStats (v : value) : M state unit :=
  set (fun s => State (logs s) v (loading s) (refreshing s) (filterStatus s)).
Definition setLoading (b : bool) : M state unit :=
  set (fun s => State (logs s) (stats s) b (refreshing s) (filterStatus s)).
Definition setRefreshing (b : bool) : M state unit :=
  set (fun s => State (logs s) (stats s) (loading s) b (filterStatus s)).
Definition setFilterStatus (status : string) : M state unit :=
  set (fun s => State (logs s) (stats s) (loading s) (refreshing s) status).

Section Handlers.
Context (h : host).

Definition loadData_catch (error : thrown) : M state unit :=
  console_error "Failed to load data:" error ;;
  Alert_alert "Error" (VStr "Failed to load SMS logs") [].

Definition loadData : M state unit :=
  finally
    (try_catch
       (logsPromise ← fetch h GET (backendUrl h +:+ "/api/sms/messages") None;
        statsPromise ← fetch h GET (backendUrl h +:+ "/api/sms/stats") None;
        '(logsResponse, statsResponse) ← await (Promise_all2 logsPromise statsPromise);
        logsData ← await (json logsResponse);
        statsData ← await (json statsResponse);
        setLogs logsData ;;
        setStats statsData)
       loadData_catch)
    (setLoading false ;; setRefreshing false).

Definition onRefresh : M state unit :=
  setRefreshing true ;; loadData.

Definition clearLogs : M state unit :=
  Alert_alert "Clear Logs"
    (VStr "Are you sure you want to clear all SMS logs? This action cannot be undone.")
    ["Cancel"; "Clear"].

(** The [Clear] button of that alert. *)
Definition onConfirmClear : M state unit :=
  Alert_alert "Info" (VStr "Clear logs functionality will be implemented in the backend") [].

End Handlers.

Record Icon := MkIcon { icon_name : string; icon_color : string }.

Definition getStatusIcon (log : SMSLog) : Icon :=
  if forwarded log then MkIcon "checkmark-circle" "#4CAF50"
  else if bool_decide (email_status log = "failed") then MkIcon "close-circle" "#F44336"
  else if bool_decide (email_status log = "filtered") then MkIcon "filter-circle" "#FF9800"
  else if bool_decide (email_status log = "no_config") then MkIcon "settings" "#FF5722"
  else MkIcon "time" "#999".

Definition getStatusLabel (log : SMSLog) : string :=
  if forwarded log then "Forwarded"
  else if bool_decide (email_status log = "failed") then "Failed"
  else if bool_decide (email_status log = "filtered") then "Filtered"
  else if bool_decide (email_status log = "no_config") then "No Config"
  else "Pending".

(** What [getFilteredLogs] keeps of a list of entries. *)
Definition getFilteredLogs (filterStatus : string) (entries : list SMSLog) : list SMSLog :=
  if bool_decide (filterStatus = "forwarded") then List.filter forwarded entries
  else if bool_decide (filterStatus = "failed") then
    List.filter (fun log => bool_decide (email_status log = "failed")) entries
  else entries.

(** What a card shows: a number as it is, or a text. *)
Inductive shown :=
| ShowNumber (n : number)
| ShowText (s : string).

Record StatsCard := Card {
  title : string;
  shown_value : shown;
  color : string;
  icon : string;
}.

(** The template literal of the Success Rate card, when the number's
    printing is covered by [Number_toString]. *)
Definition success_rate_text (s : SMSStats) : option string :=
  digits ← Number_toString (Math_round (forwarding_rate s)); Some (digits +:+ "%").

(** The stats section for a statistics record; [None] where the Success
    Rate text is not covered. *)
Definition statsSection (s : SMSStats) : option (list StatsCard) :=
  rate ← success_rate_text s;
  Some [ Card "Total SMS" (ShowNumber (total_messages s)) "#2196F3" "mail-outline";
         Card "Forwarded" (ShowNumber (forwarded_messages s)) "#4CAF50" "send-outline";
         Card "Failed" (ShowNumber (failed_messages s)) "#F44336" "close-circle-outline";
         Card "Success Rate" (ShowText rate) "#FF9800" "analytics-outline" ].

End LogsScreen.

(** ** Settings screen *)

Module SettingsScreen.
Import JS Host Eff.

Record state := State {
  settings : gmap string value;
}.

Definition initial_settings : gmap string value :=
  <["notificationsEnabled" := VBool true]> (
  <["runInBackground" := VBool true]> (
  <["autoStart" := VBool false]> (
  <["encryptMessages" := VBool false]> (
  <["soundEnabled" := VBool true]> (
  <["vibrationEnabled" := VBool true]> ∅))))).

Definition initial : state := State initial_settings.

Definition setSettings (m : gmap string value) : M state unit :=
  set (fun _ => State m).

(** The keys of [AppSettings]. *)
Inductive setting :=
| notificationsEnabled | runInBackground | autoStart
| encryptMessages | soundEnabled | vibrationEnabled.

Definition setting_key (k : setting) : string :=
  match k with
  | notificationsEnabled => "notificationsEnabled"
  | runInBackground => "runInBackground"
  | autoStart => "autoStart"
  | encryptMessages => "encryptMessages"
  | soundEnabled => "soundEnabled"
  | vibrationEnabled => "vibrationEnabled"
  end.

Section Handlers.
Context (h : host).

Definition loadSettings_catch (error : thrown) : M state unit :=
  console_error "Failed to load settings:" error.

Definition loadSettings (s : state) : M state unit :=
  try_catch
    (pending ← AsyncStorage_getItem h "app_settings";
     savedSettings ← await pending;
     match savedSettings with
     | Some text =>
         if truthy (VStr text) then
           parsed ← lift (JSON_parse h text);
           setSettings (spread parsed ∪ settings s)
         else mret tt
     | None => mret tt
     end)
    loadSettings_catch.

Definition updateSetting_catch (error : thrown) : M state unit :=
  console_error "Failed to save setting:" error ;;
  Alert_alert "Error" (VStr "Failed to save setting") [].

Definition updateSetting (key : setting) (v : bool) (s : state) : M state unit :=
  try_catch
    (let newSettings := <[setting_key key := VBool v]> (settings s) in
     setSettings newSettings ;;
     written ← AsyncStorage_setItem h "app_settings" (JSON_stringify h (VObj newSettings));
     await written)
    updateSetting_catch.

Definition clearAllData : M state unit :=
  Alert_alert "Clear All Data"
    (VStr "This will remove all SMS logs, filters, and email configuration. This action cannot be undone.")
    ["Cancel"; "Clear All"].

Definition onConfirmClearAll_catch (error : thrown) : M state unit :=
  Alert_alert "Error" (VStr "Failed to clear data") [].

(** The [Clear All] button of that alert. *)
Definition onConfirmClearAll : M state unit :=
  try_catch
    (removed ← AsyncStorage_multiRemove h
                 ["email_config"; "sms_filters"; "sms_logs"; "app_settings"; "service_status"];
     await removed ;;
     Alert_alert "Success" (VStr "All data has been cleared") [])
    onConfirmClearAll_catch.

Definition exportData : M state unit :=
  Alert_alert "Export Data"
    (VStr "Data export functionality will be available in a future update. This will allow you to backup your SMS logs and settings.")
    ["OK"].

Definition openAppPermissions : M state unit :=
  Alert_alert "App Permissions"
    (VStr "Open device settings to manage app permissions including SMS access, notifications, and background processing.")
    ["Cancel"; "Open Settings"].

(** The [Open Settings] button of that alert. *)
Definition onOpenSettings : M state unit := emit EOpenSettings.

End Handlers.

End SettingsScreen.

(** ** Test SMS screen *)

Module TestSMSScreen.
Import JS Host Eff.

Record TestData := Data {
  sender : string;
  content : string;
}.

Record state := State {
  testData : TestData;
  loading : bool;
}.

Definition initial : state :=
  State (Data "+1234567890"
              "This is a test SMS message to verify that your email forwarding is working correctly.")
        false.

Definition setTestData (d : TestData) : M state unit :=
  set (fun s => State d (loading s)).
Definition setLoading (b : bool) : M state unit :=
  set (fun s => State (testData s) b).

Section Handlers.
Context (h : host).

Definition sendTestSMS_catch (error : thrown) : M state unit :=
  Alert_alert "Error" (message_or error "Failed to send test SMS") [].

Definition LF : string := String (ascii_of_nat 10) EmptyString.

Definition sendTestSMS (s : state) : M state unit :=
  if bool_decide (trim (sender (testData s)) = "") || bool_decide (trim (content (testData s)) = "") then
    Alert_alert "Validation Error" (VStr "Please fill in both sender and content fields") []
  else
    setLoading true ;;
    finally
      (try_catch
         (promise ← fetch h POST (backendUrl h +:+ "/api/sms/forward")
                      (Some (VObj (<["sender" := VStr (sender (testData s))]> (
                                   <["content" := VStr (content (testData s))]> (
                                   <["timestamp" := VStr (now_iso h)]> ∅)))));
          response ← await promise;
          result ← await (json response);
          if ok response then
            status ← get h result "status";
            message ← get h result "message";
            Alert_alert "Test Result"
              (VStr ("SMS processing " +:+ (if is_str status "sent" then "successful" else "completed")
                     +:+ "!" +:+ LF +:+ LF +:+ "Status: " +:+ ToString h status
                     +:+ LF +:+ "Message: " +:+ ToString h message))
              ["View Logs"; "OK"]
          else
            detail ← get h result "detail";
            throw (new_Error h (or_else detail (VStr "Failed to process test SMS"))))
         sendTestSMS_catch)
      (setLoading false).

(** The [View Logs] button of the result alert. *)
Definition onViewLogs : M state unit := emit (ERouterPush "/logs").

End Handlers.

Definition usePreset (preset : TestData) : M state unit := setTestData preset.

Definition onChangeSender (text : string) (s : state) : M state unit :=
  setTestData (Data text (content (testData s))).
Definition onChangeContent (text : string) (s : state) : M state unit :=
  setTestData (Data (sender (testData s)) text).

End TestSMSScreen.

(** ** The application: every handler of every screen *)

Module App.
Import JS Host Eff.

(** One run of one handler: a mount effect or a user action, with the state
    of the render it was created in. *)
Inductive invocation :=
| Home_onMount (s : HomeScreen.state)
| Home_toggleService (s : HomeScreen.state)
| Home_requestPermissions (s : HomeScreen.state)
| Home_onGrantPermissions (s : HomeScreen.state)
| Email_onMount (s : EmailConfigScreen.state)
| Email_save (s : EmailConfigScreen.state)
| Email_test (s : EmailConfigScreen.state)
| Email_preset (p : EmailConfigScreen.provider) (s : EmailConfigScreen.state)
| Email_changeField (k text : string) (s : EmailConfigScreen.state)
| Email_changePort (text : string) (s : EmailConfigScreen.state)
| Email_toggleTls (s : EmailConfigScreen.state)
| Email_pressTab (t : EmailConfigScreen.tab) (s : EmailConfigScreen.state)
| Filters_onMount (s : FiltersScreen.state)
| Filters_openAdd (s : FiltersScreen.state)
| Filters_openEdit (filter : value) (s : FiltersScreen.state)
| Filters_save (s : FiltersScreen.state)
| Filters_toggle (filter : value) (s : FiltersScreen.state)
| Filters_delete (filter : value) (s : FiltersScreen.state)
| Filters_confirmDelete (filter : value) (s : FiltersScreen.state)
| Filters_changeName (text : string) (s : FiltersScreen.state)
| Filters_changeValue (text : string) (s : FiltersScreen.state)
| Filters_pressType (k : FiltersScreen.filter_kind) (s : FiltersScreen.state)
| Filters_closeModal (s : FiltersScreen.state)
| Logs_onMount (s : LogsScreen.state)
| Logs_onRefresh (s : LogsScreen.state)
| Logs_clearLogs (s : LogsScreen.state)
| Logs_confirmClear (s : LogsScreen.state)
| Logs_pressFilter (status : string) (s : LogsScreen.state)
| Settings_onMount (s : SettingsScreen.state)
| Settings_update (key : SettingsScreen.setting) (v : bool) (s : SettingsScreen.state)
| Settings_clearAll (s : SettingsScreen.state)
| Settings_confirmClearAll (s : SettingsScreen.state)
| Settings_export (s : SettingsScreen.state)
| Settings_openPermissions (s : SettingsScreen.state)
| Settings_onOpenSettings (s : SettingsScreen.state)
| Test_send (s : TestSMSScreen.state)
| Test_viewLogs (s : TestSMSScreen.state)
| Test_usePreset (preset : TestSMSScreen.TestData) (s : TestSMSScreen.state)
| Test_changeSender (text : string) (s : TestSMSScreen.state)
| Test_changeContent (text : string) (s : TestSMSScreen.state)
| Router_push (path : string)
| Router_back.

(** The events of an invocation on a host. *)
Definition trace (h : host) (i : invocation) : list event :=
  match i with
  | Home_onMount s => events (HomeScreen.onMount h s)
  | Home_toggleService s => events (HomeScreen.toggleService h s s)
  | Home_requestPermissions s => events (HomeScreen.requestPermissions h s)
  | Home_onGrantPermissions s => events (HomeScreen.onGrantPermissions s)
  | Email_onMount s => events (EmailConfigScreen.loadEmailConfig h s)
  | Email_save s => events (EmailConfigScreen.saveEmailConfig h s s)
  | Email_test s => events (EmailConfigScreen.testEmailConfig h s s)
  | Email_preset p s => events (EmailConfigScreen.getProviderPresets p s s)
  | Email_changeField k text s => events (EmailConfigScreen.onChangeField k text s s)
  | Email_changePort text s => events (EmailConfigScreen.onChangePort text s s)
  | Email_toggleTls s => events (EmailConfigScreen.onToggleTls s s)
  | Email_pressTab t s => events (EmailConfigScreen.onPressTab t s)
  | Filters_onMount s => events (FiltersScreen.loadFilters h s)
  | Filters_openAdd s => events (FiltersScreen.openAddModal s)
  | Filters_openEdit filter s => events (FiltersScreen.openEditModal h filter s)
  | Filters_save s => events (FiltersScreen.saveFilter h s s)
  | Filters_toggle filter s => events (FiltersScreen.toggleFilter h filter s)
  | Filters_delete filter s => events (FiltersScreen.deleteFilter h filter s)
  | Filters_confirmDelete filter s => events (FiltersScreen.onConfirmDelete h filter s)
  | Filters_changeName text s => events (FiltersScreen.onChangeName text s s)
  | Filters_changeValue text s => events (FiltersScreen.onChangeValue text s s)
  | Filters_pressType k s => events (FiltersScreen.onPressType k s s)
  | Filters_closeModal s => events (FiltersScreen.onCloseModal s)
  | Logs_onMount s => events (LogsScreen.loadData h s)
  | Logs_onRefresh s => events (LogsScreen.onRefresh h s)
  | Logs_clearLogs s => events (LogsScreen.clearLogs s)
  | Logs_confirmClear s => events (LogsScreen.onConfirmClear s)
  | Logs_pressFilter status s => events (LogsScreen.setFilterStatus status s)
  | Settings_onMount s => events (SettingsScreen.loadSettings h s s)
  | Settings_update key v s => events (SettingsScreen.updateSetting h key v s s)
  | Settings_clearAll s => events (SettingsScreen.clearAllData s)
  | Settings_confirmClearAll s => events (SettingsScreen.onConfirmClearAll h s)
  | Settings_export s => events (SettingsScreen.exportData s)
  | Settings_openPermissions s => events (SettingsScreen.openAppPermissions s)
  | Settings_onOpenSettings s => events (SettingsScreen.onOpenSettings s)
  | Test_send s => events (TestSMSScreen.sendTestSMS h s s)
  | Test_viewLogs s => events (TestSMSScreen.onViewLogs s)
  | Test_usePreset preset s => events (TestSMSScreen.usePreset preset s)
  | Test_changeSender text s => events (TestSMSScreen.onChangeSender text s s)
  | Test_changeContent text s => events (TestSMSScreen.onChangeContent text s s)
  | Router_push path => [ERouterPush path]
  | Router_back => [ERouterBack]
  end.

(** The requests in a trace, as method and URL. *)
Definition requests (t : list event) : list (method * string) :=
  omap (fun e => match e with EFetch m url _ => Some (m, url) | _ => None end) t.

(** The backend interface the screens assume. *)
Inductive endpoint (h : host) : method -> string -> Prop :=
| sms_forward : endpoint h POST (backendUrl h +:+ "/api/sms/forward")
| sms_messages : endpoint h GET (backendUrl h +:+ "/api/sms/messages")
| sms_stats : endpoint h GET (backendUrl h +:+ "/api/sms/stats")
| filters_list : endpoint h GET (backendUrl h +:+ "/api/filters")
| filters_create : endpoint h POST (backendUrl h +:+ "/api/filters")
| filters_update id : endpoint h PUT (backendUrl h +:+ "/api/filters/" +:+ id)
| filters_delete id : endpoint h DELETE (backendUrl h +:+ "/api/filters/" +:+ id)
| email_config_get : endpoint h GET (backendUrl h +:+ "/api/email/config")
| email_config_post : endpoint h POST (backendUrl h +:+ "/api/email/config")
| email_test : endpoint h POST (backendUrl h +:+ "/api/email/test").

End App.

(** * Vocabulary of the properties *)

Import JS Host Eff.

(** ** Traces *)

(** Every event of every run of [m] satisfies [P]. *)
Definition emits_only {St A : Type} (P : event -> Prop) (m : M St A) : Prop :=
  forall s, Forall P (events (m s)).

(** A request is to one of the ten endpoints; other events are free. *)
Definition to_endpoint (h : host) (e : event) : Prop :=
  match e with
  | EFetch m url _ => App.endpoint h m url
  | _ => True
  end.

(** ** Texts *)

Definition is_decimal_digit (c : ascii) : bool :=
  let n := N_of_ascii c in ((48 <=? n) && (n <=? 57))%N.

Fixpoint has_decimal_digit (s : string) : bool :=
  match s with
  | EmptyString => false
  | String c rest => is_decimal_digit c || has_decimal_digit rest
  end.

(** A text that is empty or made of white space only. *)
Fixpoint whitespace_only (s : string) : bool :=
  match s with
  | EmptyString => true
  | String c rest => is_whitespace c && whitespace_only rest
  end.

(** ** Stored entries and configurations *)

(** The entry's timestamp falls on the current date. *)
Definition dated_today (h : host) (entry : gmap string value) : bool :=
  bool_decide (Date_toDateString h (prop entry "timestamp") = today h).

(** The fields a configuration is said to carry besides [email_type]. *)
Definition config_fields : list string :=
  ["smtp_server"; "smtp_port"; "smtp_username"; "smtp_password";
   "use_tls"; "recipient_email"; "sender_name"].

(** The keys the five text inputs write. *)
Definition text_fields : list string :=
  ["recipient_email"; "smtp_server"; "smtp_username"; "smtp_password"; "sender_name"].

(** The states the form alone produces: the initial state, followed by tab
    presses, input edits, presets, and runs of the save and test buttons.
    Loading a configuration from the server is not among them. *)
Inductive from_form : EmailConfigScreen.state -> Prop :=
| from_initial : from_form EmailConfigScreen.initial
| from_tab t s :
    from_form s -> from_form (final (EmailConfigScreen.onPressTab t s))
| from_field k text s :
    k ∈ text_fields -> from_form s ->
    from_form (final (EmailConfigScreen.onChangeField k text s s))
| from_port text s :
    from_form s -> from_form (final (EmailConfigScreen.onChangePort text s s))
| from_tls s :
    from_form s -> from_form (final (EmailConfigScreen.onToggleTls s s))
| from_preset p s :
    from_form s -> from_form (final (EmailConfigScreen.getProviderPresets p s s))
| from_save h s :
    from_form s -> from_form (final (EmailConfigScreen.saveEmailConfig h s s))
| from_test h s :
    from_form s -> from_form (final (EmailConfigScreen.testEmailConfig h s s)).

(** The tab is one of the three buttons and every field is there. *)
Definition complete (s : EmailConfigScreen.state) : Prop :=
  (exists t, EmailConfigScreen.activeTab s = VStr (EmailConfigScreen.tab_id t))
  /\ forall k, k ∈ config_fields -> is_Some (EmailConfigScreen.config s !! k).

(** ** Failures, alerts and flags *)

(** The call behind the event was rejected by the host. *)
Definition rejected (h : host) (e : event) : Prop :=
  match e with
  | EFetch m url body => exists error, net h (Request m url body) = inl error
  | EGetItem key => exists error, getItem h key = inl error
  | ESetItem key item => exists error, setItem h key item = inl error
  | EMultiRemove keys => exists error, multiRemove h keys = inl error
  | _ => False
  end.

(** The event is a request other than a GET that was answered, not ok. *)
Definition refused (h : host) (e : event) : Prop :=
  match e with
  | EFetch GET _ _ => False
  | EFetch m url body => exists response, net h (Request m url body) = inr response /\ ok response = false
  | _ => False
  end.

(** The event is a load (GET) that was answered, not ok, with a body that parses. *)
Definition refused_load (h : host) (e : event) : Prop :=
  match e with
  | EFetch GET url body =>
      exists response data,
        net h (Request GET url body) = inr response /\ ok response = false
        /\ json response = inr data
  | _ => False
  end.

Definition is_alert (e : event) : bool :=
  match e with EAlert _ _ _ => true | _ => false end.

(** An alert that reports a failure. *)
Definition is_error_alert (e : event) : bool :=
  match e with
  | EAlert title _ _ => bool_decide (title = "Error") || bool_decide (title = "Test Error")
  | _ => false
  end.

Definition is_console_error (e : event) : bool :=
  match e with EConsoleError _ _ => true | _ => false end.

(** The loaders whose [catch] only logs: the mount effects of the dashboard
    ([loadDashboardData], [checkServiceStatus]), of the email configuration
    screen ([loadEmailConfig]) and of the settings screen ([loadSettings]). *)
Definition console_only (i : App.invocation) : bool :=
  match i with
  | App.Home_onMount _ | App.Email_onMount _ | App.Settings_onMount _ => true
  | _ => false
  end.

(** The operations that test [response.ok]. *)
Definition checks_ok (i : App.invocation) : bool :=
  match i with
  | App.Email_save _ | App.Filters_save _ | App.Filters_toggle _ _
  | App.Filters_confirmDelete _ _ | App.Test_send _ => true
  | _ => false
  end.

(** A [catch] block's trace: nothing, a console log, an alert, or a console
    log followed by an alert. *)
Definition log_then_alert (t : list event) : bool :=
  match t with
  | [] | [EConsoleError _ _] | [EAlert _ _ _] | [EConsoleError _ _; EAlert _ _ _] => true
  | _ => false
  end.

(** A [catch] block that returns after at most a log and one alert, and
    touches no state. *)
Definition quiet {St : Type} (c : thrown -> M St unit) : Prop :=
  forall error s,
    log_then_alert (events (c error s)) = true
    /\ outcome (c error s) = inr tt
    /\ final (c error s) = s.

(** A loading, testing or refreshing flag is up in the state the handler
    was created in. *)
Definition busy_before (i : App.invocation) : bool :=
  match i with
  | App.Email_onMount s | App.Email_save s | App.Email_test s =>
      EmailConfigScreen.loading s || EmailConfigScreen.testLoading s
  | App.Filters_onMount s | App.Filters_save s | App.Filters_toggle _ s
  | App.Filters_confirmDelete _ s => FiltersScreen.loading s
  | App.Logs_onMount s | App.Logs_onRefresh s =>
      LogsScreen.loading s || LogsScreen.refreshing s
  | App.Test_send s => TestSMSScreen.loading s
  | _ => false
  end.

(** A flag is up in the state the handler leaves. *)
Definition busy_after (h : host) (i : App.invocation) : bool :=
  match i with
  | App.Email_onMount s =>
      let s' := final (EmailConfigScreen.loadEmailConfig h s) in
      EmailConfigScreen.loading s' || EmailConfigScreen.testLoading s'
  | App.Email_save s =>
      let s' := final (EmailConfigScreen.saveEmailConfig h s s) in
      EmailConfigScreen.loading s' || EmailConfigScreen.testLoading s'
  | App.Email_test s =>
      let s' := final (EmailConfigScreen.testEmailConfig h s s) in
      EmailConfigScreen.loading s' || EmailConfigScreen.testLoading s'
  | App.Filters_onMount s => FiltersScreen.loading (final (FiltersScreen.loadFilters h s))
  | App.Filters_save s => FiltersScreen.loading (final (FiltersScreen.saveFilter h s s))
  | App.Filters_toggle filter s =>
      FiltersScreen.loading (final (FiltersScreen.toggleFilter h filter s))
  | App.Filters_confirmDelete filter s =>
      FiltersScreen.loading (final (FiltersScreen.onConfirmDelete h filter s))
  | App.Logs_onMount s =>
      let s' := final (LogsScreen.loadData h s) in
      LogsScreen.loading s' || LogsScreen.refreshing s'
  | App.Logs_onRefresh s =>
      let s' := final (LogsScreen.onRefresh h s) in
      LogsScreen.loading s' || LogsScreen.refreshing s'
  | App.Test_send s => TestSMSScreen.loading (final (TestSMSScreen.sendTestSMS h s s))
  | _ => false
  end.

(** The loaders that lower their flags whatever state they start from. *)
Definition lowers_flags (i : App.invocation) : bool :=
  match i with
  | App.Filters_onMount _ | App.Logs_onMount _ | App.Logs_onRefresh _ => true
  | _ => false
  end.

(** ** Sample hosts and states *)

Module Examples.

(** The stored logs of the sample device: three entries, two of them dated
    today, one of those not forwarded. *)
Definition entry (time : string) (forwarded : bool) (status : string) : gmap string value :=
  <["timestamp" := VStr time]> (
  <["forwarded" := VBool forwarded]> (
  <["email_status" := VStr status]> ∅)).

Definition stored_entries : list (gmap string value) :=
  [ entry "2024-05-01T09:30:00Z" true "sent";
    entry "2024-05-01T11:00:00Z" false "failed";
    entry "2024-04-30T18:45:00Z" true "sent" ].

Definition stored_logs_text : string := "[three stored entries]".

Definition sample_parse (text : string) : result value :=
  if bool_decide (text = stored_logs_text) then inr (VArr (VObj <$> stored_entries))
  else if bool_decide (text = "[]") then inr (VArr [])
  else inl (ErrorObj "JSON Parse error: Unexpected token").

Definition sample_date (v : value) : string :=
  match v with
  | VStr time =>
      if String.prefix "2024-05-01" time then "Wed May 01 2024"
      else if String.prefix "2024-04-30" time then "Tue Apr 30 2024"
      else "Invalid Date"
  | _ => "Invalid Date"
  end.

(** A phone whose engine is fixed; the network and the storage vary. *)
Definition phone (net : request -> result response)
    (getItem : string -> result (option string)) (write : result unit) : host :=
  {| EXPO_PUBLIC_BACKEND_URL := VUndefined;
     Platform_OS := "android";
     net := net;
     getItem := getItem;
     setItem := fun _ _ => write;
     multiRemove := fun _ => write;
     JSON_parse := sample_parse;
     JSON_stringify := fun _ => "{}";
     ToString_other := fun _ => "[object Object]";
     type_error := fun k => "Cannot read property " +:+ k;
     Date_toDateString := sample_date;
     today := "Wed May 01 2024";
     now_iso := "2024-05-01T12:00:00.000Z" |}.

(** No network and no storage: every call is rejected. *)
Definition offline : host :=
  phone (fun _ => inl (ErrorObj "Network request failed"))
        (fun _ => inl (ErrorObj "Storage unavailable"))
        (inl (ErrorObj "Storage unavailable")).

(** A backend that answers every request with 200 and an empty object. *)
Definition accepting : host :=
  phone (fun _ => inr (Response true (inr (VObj ∅))))
        (fun key => inr (if bool_decide (key = "sms_logs") then Some stored_logs_text else None))
        (inr tt).

(** A backend that answers every request with an error status and a detail. *)
Definition refusing : host :=
  phone (fun _ => inr (Response false (inr (VObj {["detail" := VStr "Internal Server Error"]}))))
        (fun _ => inr None)
        (inr tt).

(** A backend whose stored configuration is for the device method: it has
    the fields the [EmailConfig] interface requires and none of the optional
    SMTP ones. *)
Definition device_config : gmap string value :=
  <["email_type" := VStr "device"]> (
  <["use_tls" := VBool true]> (
  <["recipient_email" := VStr "ops@example.com"]> (
  <["sender_name" := VStr "SMS Forwarder"]> ∅))).

Definition device_backend : host :=
  phone (fun _ => inr (Response true
                         (inr (VObj (<["status" := VStr "configured"]> (
                                     <["config" := VObj device_config]> ∅))))))
        (fun _ => inr None)
        (inr tt).

(** The configuration screen once the device configuration is loaded. *)
Definition device_loaded : EmailConfigScreen.state :=
  final (EmailConfigScreen.loadEmailConfig device_backend EmailConfigScreen.initial).

(** A filter form ready to be saved. *)
Definition keyword_form : FiltersScreen.state :=
  FiltersScreen.State (VArr []) false true VNull
    (FiltersScreen.Form (VStr "Bank alerts") (VStr "keyword") (VStr "bank")).

(** A configuration form ready to be saved. *)
Definition smtp_form : EmailConfigScreen.state :=
  EmailConfigScreen.State (VStr "smtp")
    (<["recipient_email" := VStr "me@example.com"]> (
     <["smtp_server" := VStr "smtp.gmail.com"]> (
     <["smtp_username" := VStr "me@example.com"]> (
     <["smtp_password" := VStr "app-password"]> EmailConfigScreen.initial_config))))
    false false.

Definition example_stats : LogsScreen.SMSStats :=
  LogsScreen.Stats (Finite 8) (Finite 7) (Finite 1) (Finite 2) (Finite 2) (Finite (175 # 2)).

End Examples.

(** * More of the screens *)

(** ** The log viewer's dates and filter buttons *)

Module LogsView.

(** What [formatDate] takes from the engine: the current time, the time
    value of a date string ([None] for an invalid date, whose [getTime()] is
    NaN), and the two locale printers. *)
Record clock := {
  now_ms : Z;
  Date_getTime : string -> option Z;
  toLocaleTimeString : Z -> string;
  toLocaleDateString : option Z -> string;
}.

Definition day_ms : Z := 1000 * 60 * 60 * 24.

(** [Math.floor(diffTime / (1000 * 60 * 60 * 24))] for two time values. *)
Definition diffDays (now date : Z) : Z := (now - date) / day_ms.

(** [formatDate(dateString)].  With an invalid date every comparison of the
    NaN day count fails and the last branch prints the date. *)
Definition formatDate (c : clock) (dateString : string) : string :=
  match Date_getTime c dateString with
  | None => toLocaleDateString c None
  | Some date =>
      let days := diffDays (now_ms c) date in
      if days =? 0 then toLocaleTimeString c date
      else if days =? 1 then "Yesterday"
      else if days <? 7 then pretty days +:+ " days ago"
      else toLocaleDateString c (Some date)
  end.

(** The three filter buttons: status, label and the count shown beside it. *)
Definition filterButtons (entries : list LogsScreen.SMSLog) : list (string * string * nat) :=
  [ ("all", "All", length entries);
    ("forwarded", "Forwarded", length (List.filter LogsScreen.forwarded entries));
    ("failed", "Failed",
     length (List.filter (fun log => bool_decide (LogsScreen.email_status log = "failed")) entries)) ].

End LogsView.

(** ** Vocabulary of the further properties *)

(** The keys [clearAllData] removes. *)
Definition cleared_keys : list string :=
  ["email_config"; "sms_filters"; "sms_logs"; "app_settings"; "service_status"].

(** The storage discipline of an event: a read or a write is of a key that
    Clear All Data removes, a write is of the service status or of the
    settings, and a removal is of exactly the cleared keys. *)
Definition storage_discipline (e : event) : Prop :=
  match e with
  | EGetItem key => key ∈ cleared_keys
  | ESetItem key _ => key = "service_status" \/ key = "app_settings"
  | EMultiRemove keys => keys = cleared_keys
  | _ => True
  end.

(** The event reaches outside the screen: the network or the storage. *)
Definition is_io (e : event) : bool :=
  match e with
  | EFetch _ _ _ | EGetItem _ | ESetItem _ _ | EMultiRemove _ => true
  | _ => false
  end.

(** The event is a request other than a GET that was answered ok. *)
Definition accepted (h : host) (e : event) : Prop :=
  match e with
  | EFetch GET _ _ => False
  | EFetch m url body => exists response, net h (Request m url body) = inr response /\ ok response = true
  | _ => False
  end.

(** The three operations that change the filters on the backend. *)
Definition mutates_filters (i : App.invocation) : bool :=
  match i with
  | App.Filters_save _ | App.Filters_toggle _ _ | App.Filters_confirmDelete _ _ => true
  | _ => false
  end.

(** The keys a provider preset writes. *)
Definition preset_fields : list string := ["smtp_server"; "smtp_port"; "use_tls"].

(** A clock for the examples: it is noon of 1 May 2024 (in milliseconds since
    the epoch), date strings are decimal time values, and the printers tag
    what they are given. *)
Definition sample_clock : LogsView.clock :=
  {| LogsView.now_ms := 1714564800000;
     LogsView.Date_getTime := fun text =>
       match parseInt text with Finite q => Some (Qfloor q) | _ => None end;
     LogsView.toLocaleTimeString := fun t => "time " +:+ pretty t;
     LogsView.toLocaleDateString := fun t =>
       match t with Some t => "date " +:+ pretty t | None => "Invalid Date" end |}.



(** A filter of the backend that is switched off. *)
Definition disabled_filter : gmap string value :=
  <["id" := VStr "f1"]> (
  <["name" := VStr "Bank alerts"]> (
  <["filter_type" := VStr "keyword"]> (
  <["filter_value" := VStr "bank"]> (
  <["enabled" := VBool false]> ∅)))).

(** The screens that keep their data on the device: the dashboard and the
    settings.  The other screens talk to the backend. *)
Definition on_device (i : App.invocation) : bool :=
  match i with
  | App.Home_onMount _ | App.Home_toggleService _ | App.Home_requestPermissions _
  | App.Home_onGrantPermissions _
  | App.Settings_onMount _ | App.Settings_update _ _ _ | App.Settings_clearAll _
  | App.Settings_confirmClearAll _ | App.Settings_export _ | App.Settings_openPermissions _
  | App.Settings_onOpenSettings _ => true
  | _ => false
  end.

Definition is_fetch (e : event) : bool :=
  match e with EFetch _ _ _ => true | _ => false end.

Definition is_storage (e : event) : bool :=
  match e with EGetItem _ | ESetItem _ _ | EMultiRemove _ => true | _ => false end.

(** Typing in a form, choosing a tab, a type or a status filter, opening or
    closing the filter form, and picking a preset. *)
Definition edits_form (i : App.invocation) : bool :=
  match i with
  | App.Email_preset _ _ | App.Email_changeField _ _ _ | App.Email_changePort _ _
  | App.Email_toggleTls _ | App.Email_pressTab _ _
  | App.Filters_openAdd _ | App.Filters_openEdit _ _ | App.Filters_changeName _ _
  | App.Filters_changeValue _ _ | App.Filters_pressType _ _ | App.Filters_closeModal _
  | App.Logs_pressFilter _ _
  | App.Test_usePreset _ _ | App.Test_changeSender _ _ | App.Test_changeContent _ _ => true
  | _ => false
  end.

(** A backend that holds the SMTP configuration of the sample form. *)
Definition smtp_backend : host :=
  Examples.phone
    (fun _ => inr (Response true
                     (inr (VObj (<["status" := VStr "configured"]> (
                                 <["config" := VObj (EmailConfigScreen.config Examples.smtp_form)]>
                                 ∅))))))
    (fun _ => inr None) (inr tt).

(** * Proofs *)

(** ** Tactics *)

Create HintDb handlers.

#[local] Hint Unfold
  HomeScreen.onMount HomeScreen.toggleService HomeScreen.requestPermissions
  HomeScreen.onGrantPermissions HomeScreen.loadDashboardData HomeScreen.checkServiceStatus
  HomeScreen.loadDashboardData_begin HomeScreen.loadDashboardData_resume
  HomeScreen.checkServiceStatus_begin HomeScreen.checkServiceStatus_resume
  HomeScreen.loadDashboardData_catch HomeScreen.checkServiceStatus_catch
  HomeScreen.toggleService_catch HomeScreen.setStats HomeScreen.setIsServiceRunning
  EmailConfigScreen.loadEmailConfig EmailConfigScreen.saveEmailConfig
  EmailConfigScreen.testEmailConfig EmailConfigScreen.loadEmailConfig_catch
  EmailConfigScreen.saveEmailConfig_catch EmailConfigScreen.testEmailConfig_catch
  EmailConfigScreen.getProviderPresets EmailConfigScreen.onChangeField
  EmailConfigScreen.onChangePort EmailConfigScreen.onToggleTls EmailConfigScreen.onPressTab
  EmailConfigScreen.setConfig EmailConfigScreen.setActiveTab EmailConfigScreen.setLoading
  EmailConfigScreen.setTestLoading
  FiltersScreen.blank FiltersScreen.loadFilters FiltersScreen.loadFilters_begin
  FiltersScreen.loadFilters_resume FiltersScreen.loadFilters_catch FiltersScreen.openAddModal
  FiltersScreen.openEditModal FiltersScreen.saveFilter FiltersScreen.saveFilter_try
  FiltersScreen.saveFilter_catch FiltersScreen.resume_reload FiltersScreen.toggleFilter
  FiltersScreen.toggleFilter_try FiltersScreen.toggleFilter_catch FiltersScreen.deleteFilter
  FiltersScreen.onConfirmDelete FiltersScreen.onConfirmDelete_try
  FiltersScreen.onConfirmDelete_catch FiltersScreen.onChangeName FiltersScreen.onChangeValue
  FiltersScreen.onPressType FiltersScreen.onCloseModal FiltersScreen.setFilters
  FiltersScreen.setLoading FiltersScreen.setModalVisible FiltersScreen.setEditingFilter
  FiltersScreen.setFormData
  LogsScreen.loadData LogsScreen.loadData_catch LogsScreen.onRefresh LogsScreen.clearLogs
  LogsScreen.onConfirmClear LogsScreen.setLogs LogsScreen.setStats LogsScreen.setLoading
  LogsScreen.setRefreshing LogsScreen.setFilterStatus
  SettingsScreen.loadSettings SettingsScreen.loadSettings_catch SettingsScreen.updateSetting
  SettingsScreen.updateSetting_catch SettingsScreen.clearAllData
  SettingsScreen.onConfirmClearAll SettingsScreen.onConfirmClearAll_catch
  SettingsScreen.exportData SettingsScreen.openAppPermissions SettingsScreen.onOpenSettings
  SettingsScreen.setSettings
  TestSMSScreen.sendTestSMS TestSMSScreen.sendTestSMS_catch TestSMSScreen.onViewLogs
  TestSMSScreen.usePreset TestSMSScreen.onChangeSender TestSMSScreen.onChangeContent
  TestSMSScreen.setTestData TestSMSScreen.setLoading
  : handlers.

(** Splits on the innermost scrutinee a stuck [match] waits for. *)
Ltac split_innermost x :=
  lazymatch x with
  | context [match ?y with _ => _ end] => split_innermost y
  | _ => destruct x eqn:?
  end.

(** Runs a handler symbolically, splitting on everything the host or the
    state decides, until its run is written out. *)
Ltac run_cases :=
  autounfold with handlers;
  cbv [mbind mret M_bind M_ret bind ret throw lift await try_catch finally emit set
       fetch AsyncStorage_getItem AsyncStorage_setItem AsyncStorage_multiRemove
       Alert_alert console_error get Promise_all2 Promise_all3];
  cbn [events final outcome app];
  repeat (match goal with
          | |- context [match ?x with _ => _ end] => split_innermost x
          end; cbn [events final outcome app]).

(** Merges two readings of the same host answer. *)
Ltac agree :=
  repeat match goal with
         | H1 : ?x = _, H2 : ?x = _ |- _ => rewrite H1 in H2; simplify_eq/=
         end.

(** Closes a case whose branch condition evaluates the other way. *)
Ltac absurd_case :=
  exfalso; simplify_eq/=;
  match goal with
  | H : _ = _ |- _ => vm_compute in H; discriminate H
  end.

(** Membership in a list written out. *)
Ltac in_list :=
  solve [repeat first [apply list_elem_of_here | apply list_elem_of_further]].

(** Evaluates the property reads of a written-out object. *)
Ltac eval_reads :=
  repeat match goal with
         | H : getProp _ _ _ = _ |- _ => vm_compute in H; simplify_eq
         end.

Ltac issued :=
  cbn [App.trace]; run_cases; eval_reads; cbn; first [in_list | absurd_case].

(** Takes a hypothesis on a written-out trace apart, event by event. *)
Ltac scan H :=
  repeat (apply Exists_cons in H as [H | H]);
  try (by apply Exists_nil in H);
  cbn in H; try done;
  repeat match type of H with
         | exists _, _ => destruct H as [? H]
         | _ /\ _ => destruct H as [? H]
         end;
  try congruence.

(** Two requests of a written-out list differ. *)
Ltac differ H :=
  repeat (apply elem_of_cons in H as [H | H]);
  try (by apply elem_of_nil in H);
  first [ by simplify_eq
        | injection H as H;
          match type of H with
          | ?b +:+ _ = ?b +:+ _ => apply (inj (String.app b)) in H; discriminate H
          end ].

Ltac distinct :=
  repeat (apply NoDup_cons; split; [let H := fresh in intros H; differ H |]);
  apply NoDup_nil_2.

(** ** Traces of composed computations *)

Section EmitsOnly.
Context {St : Type} (P : event -> Prop).

Local Abbreviation only := (emits_only (St := St) P).

Lemma emits_only_ret {A} (a : A) : only (ret a).
Proof. intros s. constructor. Qed.

Lemma emits_only_mret {A} (a : A) : only (mret a).
Proof. intros s. constructor. Qed.

Lemma emits_only_throw {A} e : only (throw (A := A) e).
Proof. intros s. constructor. Qed.

Lemma emits_only_lift {A} (r : result A) : only (lift r).
Proof. intros s. constructor. Qed.

Lemma emits_only_await {A} (r : result A) : only (await r).
Proof. intros s. constructor. Qed.

Lemma emits_only_set f : only (set f).
Proof. intros s. constructor. Qed.

Lemma emits_only_emit e : P e -> only (emit e).
Proof. intros He s. repeat constructor. exact He. Qed.

Lemma emits_only_bind {A B} (m : M St A) (k : A -> M St B) :
  only m -> (forall a, only (k a)) -> only (bind m k).
Proof.
  intros Hm Hk s. unfold bind.
  specialize (Hm s). destruct (m s) as [t s1 [e | a]]; simpl in *; [done |].
  specialize (Hk a s1). destruct (k a s1) as [t' s2 o]; simpl in *.
  apply Forall_app. by split.
Qed.

Lemma emits_only_mbind {A B} (m : M St A) (k : A -> M St B) :
  only m -> (forall a, only (k a)) -> only (m ≫= k).
Proof. apply emits_only_bind. Qed.

Lemma emits_only_try_catch {A} (m : M St A) (c : thrown -> M St A) :
  only m -> (forall e, only (c e)) -> only (try_catch m c).
Proof.
  intros Hm Hc s. unfold try_catch.
  specialize (Hm s). destruct (m s) as [t s1 [e | a]]; simpl in *; [| done].
  specialize (Hc e s1). destruct (c e s1) as [t' s2 o]; simpl in *.
  apply Forall_app. by split.
Qed.

Lemma emits_only_finally {A} (m : M St A) (f : M St unit) :
  only m -> only f -> only (finally m f).
Proof.
  intros Hm Hf s. unfold finally.
  specialize (Hm s). destruct (m s) as [t s1 o]; simpl in *.
  specialize (Hf s1). destruct (f s1) as [t' s2 [e | []]]; simpl in *.
  all: apply Forall_app; by split.
Qed.

Lemma emits_only_get h v k : only (get h v k).
Proof. apply emits_only_lift. Qed.

Lemma emits_only_fetch h m url body :
  P (EFetch m url body) -> only (fetch h m url body).
Proof.
  intros He. apply emits_only_mbind; [by apply emits_only_emit | intros; apply emits_only_ret].
Qed.

Lemma emits_only_getItem h key :
  P (EGetItem key) -> only (AsyncStorage_getItem h key).
Proof.
  intros He. apply emits_only_mbind; [by apply emits_only_emit | intros; apply emits_only_ret].
Qed.

Lemma emits_only_setItem h key item :
  P (ESetItem key item) -> only (AsyncStorage_setItem h key item).
Proof.
  intros He. apply emits_only_mbind; [by apply emits_only_emit | intros; apply emits_only_ret].
Qed.

Lemma emits_only_multiRemove h keys :
  P (EMultiRemove keys) -> only (AsyncStorage_multiRemove h keys).
Proof.
  intros He. apply emits_only_mbind; [by apply emits_only_emit | intros; apply emits_only_ret].
Qed.

Lemma emits_only_alert title message buttons :
  P (EAlert title message buttons) -> only (Alert_alert title message buttons).
Proof. apply emits_only_emit. Qed.

Lemma emits_only_console_error label error :
  P (EConsoleError label error) -> only (console_error label error).
Proof. apply emits_only_emit. Qed.

End EmitsOnly.

(** Walks a handler along its binds, catches and branches, leaving the
    side conditions on the events it emits. *)
Ltac walk :=
  repeat first
    [ apply emits_only_mbind; [ | intros ? ]
    | apply emits_only_bind; [ | intros ? ]
    | apply emits_only_try_catch; [ | intros ? ]
    | apply emits_only_finally
    | apply emits_only_mret
    | apply emits_only_ret
    | apply emits_only_throw
    | apply emits_only_lift
    | apply emits_only_await
    | apply emits_only_get
    | apply emits_only_set
    | apply emits_only_fetch
    | apply emits_only_getItem
    | apply emits_only_setItem
    | apply emits_only_multiRemove
    | apply emits_only_alert
    | apply emits_only_console_error
    | apply emits_only_emit
    | match goal with
      | |- emits_only _ (match ?x with _ => _ end) => destruct x
      | |- emits_only _ (let '(_, _) := ?x in _) => destruct x
      end
    | progress autounfold with handlers ].

(** ** Failures and alerts (C1) *)

Lemma loud_on_rejection h i :
  console_only i = false ->
  Exists (rejected h) (App.trace h i) ->
  existsb is_error_alert (App.trace h i) = true.
Proof.
  destruct i; try discriminate; intros _; cbn [App.trace];
    try (intros H; cbn in H; scan H; fail).
  all: run_cases; intros H; try reflexivity; scan H.
Qed.

Lemma loud_on_refusal h i :
  checks_ok i = true ->
  Exists (refused h) (App.trace h i) ->
  existsb is_error_alert (App.trace h i) = true.
Proof.
  destruct i; try discriminate; intros _; cbn [App.trace].
  all: run_cases; intros H; try reflexivity; scan H.
Qed.

Lemma silent_loaders h i :
  console_only i = true ->
  existsb is_alert (App.trace h i) = false
  /\ (Exists (rejected h) (App.trace h i) ->
      existsb is_console_error (App.trace h i) = true).
Proof.
  destruct i; try discriminate; intros _; cbn [App.trace].
  all: run_cases; (split; [reflexivity |]); intros H; try reflexivity; scan H.
Qed.

(** C1, as amended.  A rejected fetch or storage call is shown as an error
    alert by every operation except the mount-time loaders of the dashboard,
    the email configuration screen and the settings screen; a response that
    is not ok is shown as an error alert by the operations that test it
    (saving the configuration, saving, toggling and deleting a filter,
    sending the test SMS); and those loaders show no alert on any host: a
    rejected call there is logged to the console. *)
Theorem failures_surfaced (h : host) (i : App.invocation) :
  (console_only i = false ->
   Exists (rejected h) (App.trace h i) ->
   existsb is_error_alert (App.trace h i) = true)
  /\ (checks_ok i = true ->
      Exists (refused h) (App.trace h i) ->
      existsb is_error_alert (App.trace h i) = true)
  /\ (console_only i = true ->
      existsb is_alert (App.trace h i) = false
      /\ (Exists (rejected h) (App.trace h i) ->
          existsb is_console_error (App.trace h i) = true)).
Proof.
  split; [apply loud_on_rejection |].
  split; [apply loud_on_refusal | apply silent_loaders].
Qed.

(** C1 as stated fails: with the network down, loading the email
    configuration on mount sends its request, is rejected, and shows no
    alert; the failure is only logged. *)
Lemma loadEmailConfig_fails_silently :
  let t := App.trace Examples.offline (App.Email_onMount EmailConfigScreen.initial) in
  t = [ EFetch GET "http://localhost:8001/api/email/config" None;
        EConsoleError "Failed to load email config:" (ErrorObj "Network request failed") ]
  /\ Exists (rejected Examples.offline) t
  /\ existsb is_alert t = false.
Proof.
  cbn zeta. split; [by vm_compute |]. split; [| by vm_compute].
  apply Exists_cons_hd. by eexists.
Qed.

(** So does the dashboard when the storage is down. *)
Example loadDashboardData_fails_silently :
  let t := App.trace Examples.offline (App.Home_onMount HomeScreen.initial) in
  Exists (rejected Examples.offline) t /\ existsb is_alert t = false.
Proof.
  cbn zeta. split; [| by vm_compute].
  apply Exists_cons_hd. by eexists.
Qed.

(** The loaders do not test [response.ok]: an error status with a body that
    parses is stored as the data, and nothing is shown. *)
Example unchecked_load_is_silent :
  let t := App.trace Examples.refusing (App.Logs_onMount LogsScreen.initial) in
  Exists (refused_load Examples.refusing) t /\ existsb is_alert t = false.
Proof.
  cbn zeta. split; [| by vm_compute].
  apply Exists_cons_hd. cbn. by repeat eexists.
Qed.

(** With the network down, saving a filter does show the error. *)
Example saveFilter_shows_rejection :
  App.trace Examples.offline (App.Filters_save Examples.keyword_form)
  = [ EFetch POST "http://localhost:8001/api/filters"
        (Some (VObj (FiltersScreen.filterData
                       (FiltersScreen.Form (VStr "Bank alerts") (VStr "keyword") (VStr "bank")))));
      EAlert "Error" (VStr "Network request failed") [] ].
Proof. by vm_compute. Qed.

(** A response that is not ok is shown by the save of the configuration,
    with the detail the backend gave. *)
Example saveEmailConfig_shows_refusal :
  App.trace Examples.refusing (App.Email_save Examples.smtp_form)
  = [ EFetch POST "http://localhost:8001/api/email/config"
        (Some (VObj (<["email_type" := VStr "smtp"]>
                       (EmailConfigScreen.config Examples.smtp_form))));
      EAlert "Error" (VStr "Internal Server Error") [] ]
  /\ EmailConfigScreen.loading
       (final (EmailConfigScreen.saveEmailConfig Examples.refusing
                 Examples.smtp_form Examples.smtp_form)) = false.
Proof. split; by vm_compute. Qed.

(** ** The endpoints (C2) *)

Lemma trace_to_endpoints h i : Forall (to_endpoint h) (App.trace h i).
Proof.
  destruct i; cbn [App.trace]; try (repeat constructor; fail).
  all: match goal with
       | |- Forall _ (events (?m ?s)) => refine ((_ : emits_only (to_endpoint h) m) s)
       end.
  all: walk; simpl; try exact I; try constructor.
Qed.

Lemma elem_of_requests m url t :
  (m, url) ∈ App.requests t <-> exists body, EFetch m url body ∈ t.
Proof.
  unfold App.requests. rewrite list_elem_of_omap. split.
  - intros (e & He & Heq). destruct e; simplify_eq. eauto.
  - intros (body & He). exists (EFetch m url body). eauto.
Qed.

Lemma endpoints_issued h m url :
  App.endpoint h m url -> exists i, (m, url) ∈ App.requests (App.trace h i).
Proof.
  intros [].
  - exists (App.Test_send TestSMSScreen.initial). issued.
  - exists (App.Logs_onMount LogsScreen.initial). issued.
  - exists (App.Logs_onMount LogsScreen.initial). issued.
  - exists (App.Filters_onMount FiltersScreen.initial). issued.
  - exists (App.Filters_save
              (FiltersScreen.State (VArr []) false true VNull
                 (FiltersScreen.Form (VStr "Bank") (VStr "all") (VStr "")))).
    issued.
  - exists (App.Filters_toggle (VObj {["id" := VStr id]}) FiltersScreen.initial). issued.
  - exists (App.Filters_confirmDelete (VObj {["id" := VStr id]}) FiltersScreen.initial). issued.
  - exists (App.Email_onMount EmailConfigScreen.initial). issued.
  - exists (App.Email_save
              (EmailConfigScreen.State (VStr "device")
                 (<["recipient_email" := VStr "me@example.com"]> EmailConfigScreen.initial_config)
                 false false)).
    issued.
  - exists (App.Email_test
              (EmailConfigScreen.State (VStr "smtp")
                 (<["recipient_email" := VStr "me@example.com"]> EmailConfigScreen.initial_config)
                 false false)).
    issued.
Qed.

(** C2. The requests the screens issue are to the ten endpoints and to no
    other: every request of every handler of every screen, on every host, is
    one of POST /api/sms/forward, GET /api/sms/messages, GET /api/sms/stats,
    GET /api/filters, POST /api/filters, PUT /api/filters/:id,
    DELETE /api/filters/:id, GET /api/email/config, POST /api/email/config,
    POST /api/email/test; and each of these is issued by some handler. *)
Theorem endpoints_exact (h : host) :
  (forall i, Forall (fun r => App.endpoint h r.1 r.2) (App.requests (App.trace h i)))
  /\ (forall m url, App.endpoint h m url <-> exists i, (m, url) ∈ App.requests (App.trace h i)).
Proof.
  assert (Hsound : forall i m url, (m, url) ∈ App.requests (App.trace h i) -> App.endpoint h m url).
  { intros i m url [body Hin]%elem_of_requests.
    pose proof (trace_to_endpoints h i) as Hall.
    rewrite Forall_forall in Hall. exact (Hall _ Hin). }
  split.
  - intros i. apply Forall_forall. intros [m url] Hin. by apply (Hsound i).
  - intros m url. split.
    + apply endpoints_issued.
    + intros [i Hin]. by apply (Hsound i).
Qed.

(** ** The delivery status of a log entry (C3) *)

(** C3. Every log entry gets one label and one icon, decided by its
    forwarded flag and its delivery status alone: Forwarded exactly when
    the flag is set; otherwise Failed for status failed, Filtered for
    filtered, No Config for no_config, and Pending for every other status,
    sent included.  The icon goes with the label. *)
Theorem status_label_total (log : LogsScreen.SMSLog) :
  let label := LogsScreen.getStatusLabel log in
  let icon := LogsScreen.getStatusIcon log in
  let f := LogsScreen.forwarded log in
  let st := LogsScreen.email_status log in
  (label = "Forwarded" <-> f = true)
  /\ (label = "Failed" <-> f = false /\ st = "failed")
  /\ (label = "Filtered" <-> f = false /\ st = "filtered")
  /\ (label = "No Config" <-> f = false /\ st = "no_config")
  /\ (label = "Pending" <-> f = false /\ st <> "failed" /\ st <> "filtered" /\ st <> "no_config")
  /\ (f = false /\ st = "sent" -> label = "Pending")
  /\ (icon = LogsScreen.MkIcon "checkmark-circle" "#4CAF50" <-> label = "Forwarded")
  /\ (icon = LogsScreen.MkIcon "close-circle" "#F44336" <-> label = "Failed")
  /\ (icon = LogsScreen.MkIcon "filter-circle" "#FF9800" <-> label = "Filtered")
  /\ (icon = LogsScreen.MkIcon "settings" "#FF5722" <-> label = "No Config")
  /\ (icon = LogsScreen.MkIcon "time" "#999" <-> label = "Pending").
Proof.
  destruct log as [? ? ? ? f ? st ?]. cbn.
  unfold LogsScreen.getStatusLabel, LogsScreen.getStatusIcon. cbn.
  destruct f; [naive_solver |].
  repeat case_bool_decide; subst; naive_solver.
Qed.

(** The label and the icon depend on nothing else in the entry. *)
Lemma status_label_depends_on_flag_and_status (a b : LogsScreen.SMSLog) :
  LogsScreen.forwarded a = LogsScreen.forwarded b ->
  LogsScreen.email_status a = LogsScreen.email_status b ->
  LogsScreen.getStatusLabel a = LogsScreen.getStatusLabel b
  /\ LogsScreen.getStatusIcon a = LogsScreen.getStatusIcon b.
Proof.
  unfold LogsScreen.getStatusLabel, LogsScreen.getStatusIcon.
  intros -> ->. done.
Qed.

Example status_label_sent :
  LogsScreen.getStatusLabel
    (LogsScreen.Log "1" "+15550100" "hello" "2024-05-01T10:00:00Z" false None "sent" None)
  = "Pending".
Proof. reflexivity. Qed.

(** ** The filter payload (C4) *)

Lemma trimEnd_empty s : trimEnd s = "" <-> whitespace_only s = true.
Proof.
  induction s as [| c rest IH]; [done |].
  cbn. destruct (trimEnd rest) eqn:E.
  - destruct (is_whitespace c); cbn; [tauto |]. split; intros; discriminate.
  - split; [discriminate |].
    intros [_ Hrest]%andb_true_iff. apply IH in Hrest. discriminate.
Qed.

Lemma trimStart_whitespace_only s :
  whitespace_only (trimStart s) = whitespace_only s.
Proof.
  induction s as [| c rest IH]; [done |].
  cbn. destruct (is_whitespace c) eqn:E; [done |].
  cbn. by rewrite E.
Qed.

(** [s.trim()] is empty exactly for a text of white space only. *)
Lemma trim_empty s : trim s = "" <-> whitespace_only s = true.
Proof.
  unfold trim. rewrite trimEnd_empty. by rewrite trimStart_whitespace_only.
Qed.

Lemma call_trim_nonblank h v trimmed :
  FiltersScreen.call_trim h v = inr trimmed ->
  bool_decide (trimmed = "") = false ->
  exists text, v = VStr text /\ whitespace_only text = false.
Proof.
  destruct v; try discriminate. cbn. intros [= <-] Hne.
  eexists. split; [done |].
  apply bool_decide_eq_false in Hne.
  destruct (whitespace_only s) eqn:E; [| done].
  by apply trim_empty in E.
Qed.

Lemma filterData_props (f : FiltersScreen.FormData) :
  prop (FiltersScreen.filterData f) "name" = FiltersScreen.name f
  /\ prop (FiltersScreen.filterData f) "filter_type" = FiltersScreen.filter_type f
  /\ prop (FiltersScreen.filterData f) "filter_value"
     = (if is_str (FiltersScreen.filter_type f) "all" then VNull else FiltersScreen.filter_value f)
  /\ prop (FiltersScreen.filterData f) "enabled" = VBool true.
Proof.
  unfold prop, FiltersScreen.filterData.
  repeat split; by simplify_map_eq.
Qed.

(** C4. Whenever [saveFilter] sends anything, the form passed validation:
    the name is a text that is not blank and, unless the type is all, so is
    the value.  The request is then the create (POST) or the update (PUT)
    carrying the payload of the form, whose filter_value is null exactly
    when the type is all, or the reload of the list (GET, no body) that
    follows a successful save.  A blank name, or a blank value with a type
    other than all, is therefore never sent. *)
Theorem saveFilter_payload_valid (h : host) (s : FiltersScreen.state) m url body :
  EFetch m url body ∈ events (FiltersScreen.saveFilter h s s) ->
  let form := FiltersScreen.formData s in
  (exists text, FiltersScreen.name form = VStr text /\ whitespace_only text = false)
  /\ (is_str (FiltersScreen.filter_type form) "all" = false ->
        exists text, FiltersScreen.filter_value form = VStr text /\ whitespace_only text = false)
  /\ ((m = GET /\ body = None)
      \/ ((m = POST \/ m = PUT)
          /\ body = Some (VObj (FiltersScreen.filterData form))
          /\ prop (FiltersScreen.filterData form) "name" = FiltersScreen.name form
          /\ prop (FiltersScreen.filterData form) "filter_type" = FiltersScreen.filter_type form
          /\ (prop (FiltersScreen.filterData form) "filter_value" = VNull
              <-> is_str (FiltersScreen.filter_type form) "all" = true))).
Proof.
  intros Hin form.
  assert (Hvalid :
    (exists text, FiltersScreen.name form = VStr text /\ whitespace_only text = false)
    /\ (is_str (FiltersScreen.filter_type form) "all" = false ->
          exists text, FiltersScreen.filter_value form = VStr text /\ whitespace_only text = false)
    /\ ((m = GET /\ body = None)
        \/ ((m = POST \/ m = PUT) /\ body = Some (VObj (FiltersScreen.filterData form))))).
  { revert Hin. subst form. run_cases; intros Hin.
    all: repeat (apply elem_of_cons in Hin as [Hin | Hin]; simplify_eq/=).
    all: try (by apply elem_of_nil in Hin).
    all: split; [by eapply call_trim_nonblank |].
    all: split; [try congruence; intros _; by eapply call_trim_nonblank |].
    all: auto. }
  destruct Hvalid as (Hname & Hvalue & Hreq).
  split; [done |]. split; [done |].
  destruct Hreq as [? | [? ?]]; [by left | right].
  destruct (filterData_props form) as (Pn & Pt & Pv & _).
  repeat split; try done.
  - rewrite Pv. destruct (is_str (FiltersScreen.filter_type form) "all") eqn:E; [done |].
    destruct (Hvalue eq_refl) as (text & -> & _). discriminate.
  - intros E. rewrite Pv. by rewrite E.
Qed.

Lemma saveFilter_payload_valid_witness :
  let s := Examples.keyword_form in
  let sent := EFetch POST "http://localhost:8001/api/filters"
                (Some (VObj (FiltersScreen.filterData (FiltersScreen.formData s)))) in
  sent ∈ events (FiltersScreen.saveFilter Examples.accepting s s)
  /\ prop (FiltersScreen.filterData (FiltersScreen.formData s)) "filter_value" = VStr "bank"
  /\ (exists text, FiltersScreen.name (FiltersScreen.formData s) = VStr text
                   /\ whitespace_only text = false).
Proof.
  cbn zeta.
  assert (Hin : EFetch POST "http://localhost:8001/api/filters"
                  (Some (VObj (FiltersScreen.filterData
                                 (FiltersScreen.formData Examples.keyword_form))))
                ∈ events (FiltersScreen.saveFilter Examples.accepting
                            Examples.keyword_form Examples.keyword_form)).
  { vm_compute. apply list_elem_of_here. }
  split; [exact Hin |].
  destruct (saveFilter_payload_valid _ _ _ _ _ Hin) as (Hname & _ & _).
  split; [reflexivity | exact Hname].
Defined.

(** A blank name stops [saveFilter] at the validation alert. *)
Example saveFilter_rejects_blank_name :
  events (FiltersScreen.saveFilter Examples.accepting
            (FiltersScreen.State (VArr []) false true VNull
               (FiltersScreen.Form (VStr "   ") (VStr "all") (VStr "")))
            (FiltersScreen.State (VArr []) false true VNull
               (FiltersScreen.Form (VStr "   ") (VStr "all") (VStr ""))))
  = [EAlert "Validation Error" (VStr "Please enter a filter name") []].
Proof. by vm_compute. Qed.

(** So does a blank value when the type is not all. *)
Example saveFilter_rejects_blank_value :
  events (FiltersScreen.saveFilter Examples.accepting
            (FiltersScreen.State (VArr []) false true VNull
               (FiltersScreen.Form (VStr "Bank") (VStr "sender") (VStr " ")))
            (FiltersScreen.State (VArr []) false true VNull
               (FiltersScreen.Form (VStr "Bank") (VStr "sender") (VStr " "))))
  = [EAlert "Validation Error" (VStr "Please enter a filter value") []].
Proof. by vm_compute. Qed.

(** ** The dashboard statistics (C5) *)

Lemma filter_items_objects h (entries : list (gmap string value)) :
  HomeScreen.filter_items (HomeScreen.is_today h) (VObj <$> entries)
  = inr (VObj <$> List.filter (dated_today h) entries).
Proof.
  induction entries as [| entry rest IH]; [done |].
  cbn. rewrite IH. fold (dated_today h entry). by destruct (dated_today h entry).
Qed.

Lemma dated_today_ignores_forwarded h flag (entries : list (gmap string value)) :
  List.filter (dated_today h) (insert "forwarded" flag <$> entries)
  = insert "forwarded" flag <$> List.filter (dated_today h) entries.
Proof.
  induction entries as [| entry rest IH]; [done |].
  cbn. rewrite IH.
  replace (dated_today h (<["forwarded" := flag]> entry)) with (dated_today h entry).
  - by destruct (dated_today h entry).
  - unfold dated_today, prop. by rewrite lookup_insert_ne.
Qed.

(** C5. When the three stored items are read and parse (the stored logs to
    an array of entry objects), the dashboard shows under Total SMS the
    number of stored entries and under Forwarded Today the number of
    entries whose timestamp falls on the current date; the forwarded flag
    is not consulted: overwriting it in every entry changes neither
    number. *)
Theorem dashboard_counts (h : host) (s : HomeScreen.state)
    (emailConfig filters logs : option string) (parsedFilters active : value)
    (entries : list (gmap string value)) :
  getItem h "email_config" = inr emailConfig ->
  getItem h "sms_filters" = inr filters ->
  getItem h "sms_logs" = inr logs ->
  HomeScreen.parse_or_empty h filters = inr parsedFilters ->
  getProp (type_error h) parsedFilters "length" = inr active ->
  HomeScreen.parse_or_empty h logs = inr (VArr (VObj <$> entries)) ->
  let after := final (HomeScreen.loadDashboardData h s) in
  let total := VInt (Z.of_nat (length entries)) in
  let today_count := VInt (Z.of_nat (length (List.filter (dated_today h) entries))) in
  HomeScreen.totalSMS (HomeScreen.stats after) = total
  /\ HomeScreen.forwardedToday (HomeScreen.stats after) = today_count
  /\ ("Total SMS", total) ∈ HomeScreen.statCards after
  /\ ("Forwarded Today", today_count) ∈ HomeScreen.statCards after
  /\ (forall flag,
        length (List.filter (dated_today h) (insert "forwarded" flag <$> entries))
        = length (List.filter (dated_today h) entries)).
Proof.
  intros Hconfig Hfilters Hlogs Hparsed Hactive Hentries.
  assert (Hafter : HomeScreen.stats (final (HomeScreen.loadDashboardData h s))
                   = HomeScreen.Stats (VInt (Z.of_nat (length entries)))
                       (VInt (Z.of_nat (length (List.filter (dated_today h) entries))))
                       active (truthy (HomeScreen.stored emailConfig))).
  { autounfold with handlers.
    cbv [mbind mret M_bind M_ret bind ret throw lift await try_catch emit set
         AsyncStorage_getItem get Promise_all3 Promise_all2].
    rewrite Hconfig, Hfilters, Hlogs. cbn. rewrite Hparsed, Hentries. cbn.
    unfold HomeScreen.Array_filter. rewrite filter_items_objects. cbn.
    rewrite Hactive. cbn. by rewrite !length_fmap. }
  cbn zeta. unfold HomeScreen.statCards. rewrite Hafter. cbn.
  repeat split; try in_list.
  intros flag. by rewrite dated_today_ignores_forwarded, length_fmap.
Qed.

Lemma dashboard_counts_witness :
  let after := final (HomeScreen.loadDashboardData Examples.accepting HomeScreen.initial) in
  HomeScreen.totalSMS (HomeScreen.stats after) = VInt 3
  /\ HomeScreen.forwardedToday (HomeScreen.stats after) = VInt 2.
Proof.
  destruct (dashboard_counts Examples.accepting HomeScreen.initial
              None None (Some Examples.stored_logs_text) (VArr []) (VInt 0)
              Examples.stored_entries
              eq_refl eq_refl eq_refl eq_refl eq_refl eq_refl)
    as (Htotal & Htoday & _).
  split; [exact Htotal | exact Htoday].
Defined.

(** ** The configuration payload (C6) *)

Lemma save_keeps_config h s :
  EmailConfigScreen.config (final (EmailConfigScreen.saveEmailConfig h s s))
  = EmailConfigScreen.config s
  /\ EmailConfigScreen.activeTab (final (EmailConfigScreen.saveEmailConfig h s s))
     = EmailConfigScreen.activeTab s.
Proof. run_cases; done. Qed.

Lemma test_keeps_config h s :
  EmailConfigScreen.config (final (EmailConfigScreen.testEmailConfig h s s))
  = EmailConfigScreen.config s
  /\ EmailConfigScreen.activeTab (final (EmailConfigScreen.testEmailConfig h s s))
     = EmailConfigScreen.activeTab s.
Proof. run_cases; done. Qed.

Lemma from_form_complete s : from_form s -> complete s.
Proof.
  induction 1 as [| t s _ [Htab Hall] | k text s Hk _ [Htab Hall] | text s _ [Htab Hall]
                  | s _ [Htab Hall] | p s _ [Htab Hall] | h s _ [Htab Hall] | h s _ [Htab Hall]].
  - split; [by exists EmailConfigScreen.smtp |].
    intros k Hk. unfold config_fields in Hk.
    repeat (apply elem_of_cons in Hk as [-> | Hk];
            [apply not_eq_None_Some; by vm_compute |]).
    by apply elem_of_nil in Hk.
  - split; [by exists t | exact Hall].
  - split; [exact Htab |]. intros k' Hk'. cbn.
    rewrite lookup_insert. case_decide; [done | by apply Hall].
  - split; [exact Htab |]. intros k' Hk'. cbn.
    rewrite lookup_insert. case_decide; [done | by apply Hall].
  - split; [exact Htab |]. intros k' Hk'. cbn.
    rewrite lookup_insert. case_decide; [done | by apply Hall].
  - unfold EmailConfigScreen.getProviderPresets.
    destruct (EmailConfigScreen.presets !! EmailConfigScreen.provider_name p) as [preset |];
      [| by split].
    split; [exact Htab |]. intros k' Hk'.
    cbv [mbind M_bind bind EmailConfigScreen.setConfig set Alert_alert emit]. cbn.
    rewrite lookup_union. destruct (Hall k' Hk') as [v ->].
    by destruct (preset !! k').
  - destruct (save_keeps_config h s) as [Hc Ht]. unfold complete. by rewrite Hc, Ht.
  - destruct (test_keeps_config h s) as [Hc Ht]. unfold complete. by rewrite Hc, Ht.
Qed.

(** C6, as amended.  Every payload submitted to POST /api/email/config is
    the configuration of the state with email_type set to the active tab:
    it carries each of the SMTP server, port, user name and password, the
    TLS flag, the recipient and the sender name as the state has it.  A
    request goes out only if the recipient is not empty and, on the smtp
    tab, neither is the server, the user name or the password.  For a state
    the form alone produced, the tab is smtp, emergent or device and the
    payload has every one of those fields. *)
Theorem saveEmailConfig_payload (h : host) (s : EmailConfigScreen.state) m url body :
  EFetch m url body ∈ events (EmailConfigScreen.saveEmailConfig h s s) ->
  let payload := <["email_type" := EmailConfigScreen.activeTab s]> (EmailConfigScreen.config s) in
  m = POST /\ url = backendUrl h +:+ "/api/email/config" /\ body = Some (VObj payload)
  /\ prop payload "email_type" = EmailConfigScreen.activeTab s
  /\ (forall k, k ∈ config_fields -> payload !! k = EmailConfigScreen.config s !! k)
  /\ truthy (prop (EmailConfigScreen.config s) "recipient_email") = true
  /\ (is_str (EmailConfigScreen.activeTab s) "smtp" = true ->
        truthy (prop (EmailConfigScreen.config s) "smtp_server") = true
        /\ truthy (prop (EmailConfigScreen.config s) "smtp_username") = true
        /\ truthy (prop (EmailConfigScreen.config s) "smtp_password") = true)
  /\ (from_form s ->
        (exists t, EmailConfigScreen.activeTab s = VStr (EmailConfigScreen.tab_id t))
        /\ forall k, k ∈ config_fields -> is_Some (payload !! k)).
Proof.
  intros Hin payload.
  assert (Hcarried : forall k, k ∈ config_fields ->
            payload !! k = EmailConfigScreen.config s !! k).
  { intros k Hk. subst payload. apply lookup_insert_ne. intros <-.
    unfold config_fields in Hk.
    repeat (apply elem_of_cons in Hk as [? | Hk]; [discriminate |]).
    by apply elem_of_nil in Hk. }
  assert (Hsent : m = POST /\ url = backendUrl h +:+ "/api/email/config"
                  /\ body = Some (VObj payload)
                  /\ truthy (prop (EmailConfigScreen.config s) "recipient_email") = true
                  /\ (is_str (EmailConfigScreen.activeTab s) "smtp" = true ->
                        truthy (prop (EmailConfigScreen.config s) "smtp_server") = true
                        /\ truthy (prop (EmailConfigScreen.config s) "smtp_username") = true
                        /\ truthy (prop (EmailConfigScreen.config s) "smtp_password") = true)).
  { revert Hin. subst payload. run_cases; intros Hin.
    all: repeat (apply elem_of_cons in Hin as [Hin | Hin]; simplify_eq/=).
    all: try (by apply elem_of_nil in Hin).
    all: repeat match goal with
                | H : negb _ = false |- _ => apply negb_false_iff in H
                | H : _ && _ = false |- _ => apply andb_false_iff in H as [H | H]
                | H : _ || _ = false |- _ => apply orb_false_iff in H as [? H]
                end.
    all: repeat split; try done; try congruence. }
  destruct Hsent as (-> & -> & -> & Hrecipient & Hsmtp).
  repeat split; try done.
  - unfold prop. subst payload. by rewrite lookup_insert_eq.
  - by apply Hsmtp.
  - by apply Hsmtp.
  - by apply Hsmtp.
  - by apply from_form_complete in H as [? _].
  - intros k Hk. rewrite (Hcarried k Hk).
    apply from_form_complete in H as [_ Hall]. by apply Hall.
Qed.

Lemma saveEmailConfig_payload_witness :
  let s := Examples.smtp_form in
  let payload := <["email_type" := EmailConfigScreen.activeTab s]> (EmailConfigScreen.config s) in
  EFetch POST "http://localhost:8001/api/email/config" (Some (VObj payload))
    ∈ events (EmailConfigScreen.saveEmailConfig Examples.accepting s s)
  /\ prop payload "email_type" = VStr "smtp"
  /\ (forall k, k ∈ config_fields -> payload !! k = EmailConfigScreen.config s !! k).
Proof.
  cbn zeta.
  assert (Hin : EFetch POST "http://localhost:8001/api/email/config"
                  (Some (VObj (<["email_type" := EmailConfigScreen.activeTab Examples.smtp_form]>
                                 (EmailConfigScreen.config Examples.smtp_form))))
                ∈ events (EmailConfigScreen.saveEmailConfig Examples.accepting
                            Examples.smtp_form Examples.smtp_form)).
  { vm_compute. apply list_elem_of_here. }
  split; [exact Hin |].
  destruct (saveEmailConfig_payload _ _ _ _ _ Hin) as (_ & _ & _ & Htab & Hcarried & _).
  split; [exact Htab | exact Hcarried].
Defined.

(** C6 as stated fails: once the configuration of a backend that stores a
    device configuration is loaded, the payload of a save has no SMTP
    server, port or user name. *)
Lemma loaded_config_payload_lacks_smtp_fields :
  let payload :=
    <["email_type" := VStr "device"]> (
    <["smtp_password" := VStr ""]> Examples.device_config) in
  App.trace Examples.device_backend (App.Email_save Examples.device_loaded)
  = [ EFetch POST "http://localhost:8001/api/email/config" (Some (VObj payload));
      EAlert "Success" (VStr "Email configuration saved successfully") [] ]
  /\ payload !! "smtp_server" = None
  /\ payload !! "smtp_port" = None
  /\ payload !! "smtp_username" = None.
Proof. cbn zeta. repeat split; by vm_compute. Qed.

(** Nor is the tab then bound to the three buttons: it is the email_type
    the backend returned. *)
Example loaded_tab_is_the_servers :
  let backend :=
    Examples.phone
      (fun _ => inr (Response true
                       (inr (VObj (<["status" := VStr "configured"]> (
                                   <["config" := VObj (<["email_type" := VStr "sendgrid"]>
                                                         Examples.device_config)]> ∅))))))
      (fun _ => inr None) (inr tt) in
  EmailConfigScreen.activeTab
    (final (EmailConfigScreen.loadEmailConfig backend EmailConfigScreen.initial))
  = VStr "sendgrid".
Proof. by vm_compute. Qed.

(** The rejections of [saveEmailConfig]. *)
Example saveEmailConfig_rejects_empty_recipient :
  App.trace Examples.accepting (App.Email_save EmailConfigScreen.initial)
  = [EAlert "Validation Error" (VStr "Please enter a recipient email address") []].
Proof. by vm_compute. Qed.

Example saveEmailConfig_rejects_empty_smtp :
  App.trace Examples.accepting
    (App.Email_save
       (EmailConfigScreen.State (VStr "smtp")
          (<["recipient_email" := VStr "me@example.com"]> EmailConfigScreen.initial_config)
          false false))
  = [EAlert "Validation Error" (VStr "Please fill in all SMTP fields") []].
Proof. by vm_compute. Qed.

(** ** The statistics record and the Success Rate card (C7) *)

Lemma integral_inject_Z z : integral (inject_Z z) = Some z.
Proof.
  unfold integral. rewrite Qfloor_Z.
  by rewrite (proj2 (Qeq_bool_iff _ _) (Qeq_refl _)).
Qed.

Lemma round_half_up_nearest q :
  (inject_Z (round_half_up q) - (1 # 2) <= q)%Q
  /\ (q < inject_Z (round_half_up q) + (1 # 2))%Q.
Proof.
  unfold round_half_up.
  pose proof (Qfloor_le (q + (1 # 2))) as Hle.
  pose proof (Qlt_floor (q + (1 # 2))) as Hlt.
  rewrite inject_Z_plus in Hlt.
  change (inject_Z 1) with 1%Q in Hlt.
  split; lra.
Qed.

(** C7. The statistics record has the six fields total_messages,
    forwarded_messages, failed_messages, today_messages, today_forwarded and
    forwarding_rate; and for a finite rate (below 10^21 in magnitude once
    rounded) the Success Rate card shows the integer nearest to it, the
    larger one on a tie, followed by a percent sign. *)
Theorem success_rate_display (s : LogsScreen.SMSStats) (q : Q) :
  LogsScreen.forwarding_rate s = Finite q ->
  Z.abs (round_half_up q) < 10 ^ 21 ->
  let r := round_half_up q in
  s = LogsScreen.Stats (LogsScreen.total_messages s) (LogsScreen.forwarded_messages s)
        (LogsScreen.failed_messages s) (LogsScreen.today_messages s)
        (LogsScreen.today_forwarded s) (LogsScreen.forwarding_rate s)
  /\ (exists cards,
        LogsScreen.statsSection s = Some cards
        /\ LogsScreen.Card "Success Rate" (LogsScreen.ShowText (pretty r +:+ "%"))
             "#FF9800" "analytics-outline" ∈ cards
        /\ forall c, c ∈ cards -> LogsScreen.title c = "Success Rate" ->
             LogsScreen.shown_value c = LogsScreen.ShowText (pretty r +:+ "%"))
  /\ (inject_Z r - (1 # 2) <= q)%Q
  /\ (q < inject_Z r + (1 # 2))%Q.
Proof.
  intros Hrate Hrange r.
  split; [by destruct s |].
  split; [| apply round_half_up_nearest].
  unfold LogsScreen.statsSection, LogsScreen.success_rate_text.
  rewrite Hrate. cbn [Math_round Number_toString].
  rewrite integral_inject_Z.
  subst r. apply Z.ltb_lt in Hrange. rewrite Hrange. cbn.
  eexists. split; [reflexivity |]. split; [in_list |].
  intros c Hc Htitle.
  repeat (apply elem_of_cons in Hc as [-> | Hc]; [try done |]).
  by apply elem_of_nil in Hc.
Qed.

Lemma success_rate_display_witness :
  exists cards,
    LogsScreen.statsSection Examples.example_stats = Some cards
    /\ LogsScreen.Card "Success Rate" (LogsScreen.ShowText "88%") "#FF9800" "analytics-outline"
         ∈ cards.
Proof.
  destruct (success_rate_display Examples.example_stats (175 # 2) eq_refl eq_refl)
    as (_ & (cards & Hsection & Hcard & _) & _).
  exists cards. split; [exact Hsection | exact Hcard].
Defined.

(** ** No automatic retry (C8) *)

Lemma requests_distinct h i : NoDup (App.requests (App.trace h i)).
Proof.
  destruct i; cbn [App.trace]; try (cbn; distinct; fail).
  all: run_cases; cbn; distinct.
Qed.

Lemma flags_lowered h i :
  (busy_before i = false -> busy_after h i = false)
  /\ (lowers_flags i = true -> busy_after h i = false).
Proof.
  destruct i; cbn [busy_before busy_after lowers_flags];
    try (split; [done | discriminate]).
  all: split; [| try discriminate; intros _]; run_cases; cbn; try done.
  all: intros [Hup Hup']%orb_false_iff; by rewrite ?Hup, ?Hup'.
Qed.

Lemma refresh_requests h s :
  App.requests (App.trace h (App.Logs_onRefresh s))
  = [ (GET, backendUrl h +:+ "/api/sms/messages"); (GET, backendUrl h +:+ "/api/sms/stats") ]
  /\ App.requests (App.trace h (App.Logs_onMount s))
     = App.requests (App.trace h (App.Logs_onRefresh s)).
Proof. cbn [App.trace]. split; run_cases; reflexivity. Qed.

(** C8. Nothing is retried: in one run of any handler, on any host, no
    request goes out twice; every [catch] block returns after at most one
    console log and one alert, sending nothing and setting nothing; the
    loading, testing and refreshing flags are down after every run that
    started with them down, and after every load of the logs or of the
    filters; and data is fetched again only by another run: the
    pull-to-refresh of the log viewer issues the requests of the first
    load. *)
Theorem no_automatic_retry (h : host) :
  (forall i, NoDup (App.requests (App.trace h i)))
  /\ (quiet HomeScreen.loadDashboardData_catch
      /\ quiet HomeScreen.checkServiceStatus_catch
      /\ quiet HomeScreen.toggleService_catch
      /\ quiet EmailConfigScreen.loadEmailConfig_catch
      /\ quiet EmailConfigScreen.saveEmailConfig_catch
      /\ quiet EmailConfigScreen.testEmailConfig_catch
      /\ quiet FiltersScreen.loadFilters_catch
      /\ quiet FiltersScreen.saveFilter_catch
      /\ quiet FiltersScreen.toggleFilter_catch
      /\ quiet FiltersScreen.onConfirmDelete_catch
      /\ quiet LogsScreen.loadData_catch
      /\ quiet SettingsScreen.loadSettings_catch
      /\ quiet SettingsScreen.updateSetting_catch
      /\ quiet SettingsScreen.onConfirmClearAll_catch
      /\ quiet TestSMSScreen.sendTestSMS_catch)
  /\ (forall i, (busy_before i = false -> busy_after h i = false)
                /\ (lowers_flags i = true -> busy_after h i = false))
  /\ (forall s,
        App.requests (App.trace h (App.Logs_onRefresh s))
        = [ (GET, backendUrl h +:+ "/api/sms/messages"); (GET, backendUrl h +:+ "/api/sms/stats") ]
        /\ App.requests (App.trace h (App.Logs_onMount s))
           = App.requests (App.trace h (App.Logs_onRefresh s))).
Proof.
  split; [apply requests_distinct |].
  split; [| split; [apply flags_lowered | apply refresh_requests]].
  repeat split.
Qed.

(** ** The password after loading the configuration (C9) *)

(** C9. Loading the configuration never puts a password in the form: for
    every response of the server, the load either leaves the configuration
    as it was or replaces it by one whose smtp_password is the empty string;
    a response that says configured and carries a configuration is loaded,
    with the empty password, whatever password it carries; and on mount,
    where the load starts from the initial state, the password is empty
    after the load on every host. *)
Theorem loaded_password_blank (h : host) (s : EmailConfigScreen.state) :
  let after s0 := final (EmailConfigScreen.loadEmailConfig h s0) in
  (prop (EmailConfigScreen.config (after s)) "smtp_password" = VStr ""
   \/ EmailConfigScreen.config (after s) = EmailConfigScreen.config s)
  /\ (forall response data data_config,
        net h (Request GET (backendUrl h +:+ "/api/email/config") None) = inr response ->
        json response = inr data ->
        getProp (type_error h) data "status" = inr (VStr "configured") ->
        getProp (type_error h) data "config" = inr data_config ->
        truthy data_config = true ->
        EmailConfigScreen.config (after s)
        = <["smtp_password" := VStr ""]> (spread data_config))
  /\ prop (EmailConfigScreen.config (after EmailConfigScreen.initial)) "smtp_password" = VStr "".
Proof.
  cbn zeta. split; [| split].
  - run_cases; cbn;
      first [ by right | left; unfold prop; by rewrite lookup_insert_eq ].
  - intros response data data_config Hnet Hjson Hstatus Hconfig Htruthy.
    run_cases; cbn; simplify_eq/=; agree; try done.
    all: destruct data_config; done.
  - run_cases; cbn; first [ done | unfold prop; by rewrite lookup_insert_eq ].
Qed.

Example loaded_password_example :
  let server : host :=
    {| EXPO_PUBLIC_BACKEND_URL := VUndefined;
       Platform_OS := "android";
       net := fun _ =>
         inr (Response true
                (inr (VObj (<["status" := VStr "configured"]> (
                            <["config" := VObj (<["email_type" := VStr "smtp"]> (
                                               <["smtp_password" := VStr "hunter2"]> (
                                               <["recipient_email" := VStr "me@example.com"]> ∅)))]> ∅)))));
       getItem := fun _ => inr None;
       setItem := fun _ _ => inr tt;
       multiRemove := fun _ => inr tt;
       JSON_parse := fun _ => inl (ErrorObj "Unexpected token");
       JSON_stringify := fun _ => "{}";
       ToString_other := fun _ => "[object Object]";
       type_error := fun k => "Cannot read property " +:+ k;
       Date_toDateString := fun _ => "Invalid Date";
       today := "Wed May 01 2024";
       now_iso := "2024-05-01T10:00:00.000Z" |} in
  let after := final (EmailConfigScreen.loadEmailConfig server EmailConfigScreen.initial) in
  prop (EmailConfigScreen.config after) "smtp_password" = VStr ""
  /\ prop (EmailConfigScreen.config after) "recipient_email" = VStr "me@example.com".
Proof. vm_compute. split; reflexivity. Qed.

(** ** The SMTP port input (C10) *)

Lemma radix_digit_10_decimal c d :
  radix_digit 10 c = Some d -> is_decimal_digit c = true.
Proof.
  unfold radix_digit, digit_value, is_decimal_digit.
  destruct c as [[] [] [] [] [] [] [] []]; vm_compute; congruence.
Qed.

Lemma trimStart_no_digit s :
  has_decimal_digit s = false -> has_decimal_digit (trimStart s) = false.
Proof.
  induction s as [| c rest IH]; [done |].
  cbn. intros [Hc Hrest]%orb_false_iff.
  destruct (is_whitespace c); [auto |].
  cbn. by rewrite Hc, Hrest.
Qed.

Lemma strip_sign_no_digit s :
  has_decimal_digit s = false -> has_decimal_digit (strip_sign s).2 = false.
Proof.
  destruct s as [| c rest]; [done |].
  intros H. pose proof H as [Hc Hrest]%orb_false_iff.
  destruct c as [[] [] [] [] [] [] [] []]; cbn; done.
Qed.

Lemma strip_hex_prefix_no_digit s :
  has_decimal_digit s = false -> strip_hex_prefix s = (10, s).
Proof.
  destruct s as [| c rest]; [done |].
  intros [Hc Hrest]%orb_false_iff.
  destruct c as [[] [] [] [] [] [] [] []]; try done.
Qed.

Lemma parse_digits_no_digit s :
  has_decimal_digit s = false -> parse_digits 10 None s = None.
Proof.
  destruct s as [| c rest]; [done |].
  intros [Hc Hrest]%orb_false_iff. cbn.
  destruct (radix_digit 10 c) as [d |] eqn:Hd; [| done].
  apply radix_digit_10_decimal in Hd. congruence.
Qed.

Lemma parseInt_no_digit text :
  has_decimal_digit text = false -> parseInt text = NaN.
Proof.
  intros H. unfold parseInt.
  pose proof (strip_sign_no_digit _ (trimStart_no_digit _ H)) as Hs.
  destruct (strip_sign (trimStart text)) as [sign unsigned]. cbn in Hs.
  rewrite (strip_hex_prefix_no_digit _ Hs).
  by rewrite (parse_digits_no_digit _ Hs).
Qed.

(** C10. What the port input stores for a typed text: [parseInt] of the
    text when that is a nonzero number, and 587 otherwise; so 587 for the
    text 0, for the empty text and for any text without a digit. *)
Theorem smtp_port_input (text : string) (s : EmailConfigScreen.state) :
  let stored :=
    prop (EmailConfigScreen.config (final (EmailConfigScreen.onChangePort text s s))) "smtp_port" in
  (forall q, parseInt text = Finite q -> ~ (q == 0)%Q -> stored = VNum (Finite q))
  /\ (forall q, parseInt text = Finite q -> (q == 0)%Q -> stored = VInt 587)
  /\ (parseInt text = NaN -> stored = VInt 587)
  /\ (text = "0" -> stored = VInt 587)
  /\ (text = "" -> stored = VInt 587)
  /\ (has_decimal_digit text = false -> stored = VInt 587).
Proof.
  cbn. unfold prop. rewrite lookup_insert_eq. cbn.
  assert (Hnan : parseInt text = NaN -> or_else (VNum (parseInt text)) (VInt 587) = VInt 587).
  { by intros ->. }
  repeat split.
  - intros q -> Hq. unfold or_else. cbn.
    destruct (Qeq_bool q 0) eqn:E; [| done].
    by apply Qeq_bool_iff in E.
  - intros q -> Hq. unfold or_else. cbn.
    apply Qeq_bool_iff in Hq. by rewrite Hq.
  - exact Hnan.
  - by intros ->.
  - by intros ->.
  - intros H. by apply Hnan, parseInt_no_digit.
Qed.

Example smtp_port_examples :
  let port text :=
    prop (EmailConfigScreen.config
            (final (EmailConfigScreen.onChangePort text EmailConfigScreen.initial
                      EmailConfigScreen.initial))) "smtp_port" in
  port "465" = VInt 465 /\ port "0" = VInt 587 /\ port "" = VInt 587
  /\ port "port" = VInt 587 /\ port "25 (legacy)" = VInt 25 /\ port "-0" = VInt 587.
Proof. vm_compute. repeat split. Qed.

(** * Further properties of the screens *)

(** ** The log viewer: filtered list and dates *)

Lemma filter_sublist {A} (f : A -> bool) (l : list A) : sublist (List.filter f l) l.
Proof.
  induction l as [| x l IH]; [constructor |].
  cbn. destruct (f x); by constructor.
Qed.

Lemma elem_of_List_filter {A} (f : A -> bool) (l : list A) x :
  x ∈ List.filter f l <-> x ∈ l /\ f x = true.
Proof. rewrite !list_elem_of_In. apply filter_In. Qed.

Lemma List_filter_idemp {A} (f : A -> bool) (l : list A) :
  List.filter f (List.filter f l) = List.filter f l.
Proof.
  induction l as [| x l IH]; [done |].
  cbn. destruct (f x) eqn:E; [| done]. cbn. by rewrite E, IH.
Qed.

(** X1. What the log viewer lists under a filter button: a sublist of the
    loaded entries in their order; under Forwarded the entries whose
    forwarded flag is set, under Failed those whose status is failed, under
    any other status all of them; filtering again changes nothing; the
    count on each button is the length of what the button lists.  An entry
    listed under Forwarded is labelled Forwarded, but an entry listed under
    Failed is labelled Failed only if its forwarded flag is not set. *)
Theorem filtered_logs_shown (status : string) (entries : list LogsScreen.SMSLog) :
  let shown := LogsScreen.getFilteredLogs status entries in
  sublist shown entries
  /\ (forall log, log ∈ LogsScreen.getFilteredLogs "forwarded" entries
                  <-> log ∈ entries /\ LogsScreen.forwarded log = true)
  /\ (forall log, log ∈ LogsScreen.getFilteredLogs "failed" entries
                  <-> log ∈ entries /\ LogsScreen.email_status log = "failed")
  /\ (status <> "forwarded" -> status <> "failed" -> shown = entries)
  /\ LogsScreen.getFilteredLogs status shown = shown
  /\ (forall button label count,
        (button, label, count) ∈ LogsView.filterButtons entries ->
        count = length (LogsScreen.getFilteredLogs button entries))
  /\ (forall log, log ∈ LogsScreen.getFilteredLogs "forwarded" entries ->
                  LogsScreen.getStatusLabel log = "Forwarded")
  /\ (forall log, log ∈ LogsScreen.getFilteredLogs "failed" entries ->
                  (LogsScreen.getStatusLabel log = "Failed" <-> LogsScreen.forwarded log = false)).
Proof.
  cbn zeta.
  assert (Hforwarded : forall log, log ∈ LogsScreen.getFilteredLogs "forwarded" entries
                         <-> log ∈ entries /\ LogsScreen.forwarded log = true).
  { intros log. unfold LogsScreen.getFilteredLogs. cbn. apply elem_of_List_filter. }
  assert (Hfailed : forall log, log ∈ LogsScreen.getFilteredLogs "failed" entries
                      <-> log ∈ entries /\ LogsScreen.email_status log = "failed").
  { intros log. unfold LogsScreen.getFilteredLogs.
    rewrite (bool_decide_eq_false_2 ("failed" = "forwarded")) by done.
    rewrite (bool_decide_eq_true_2 ("failed" = "failed")) by done.
    rewrite elem_of_List_filter. by rewrite bool_decide_eq_true. }
  repeat split; try (by apply Hforwarded); try (by apply Hfailed).
  - unfold LogsScreen.getFilteredLogs. repeat case_bool_decide; auto using filter_sublist.
  - intros H1 H2. unfold LogsScreen.getFilteredLogs. by repeat case_bool_decide.
  - unfold LogsScreen.getFilteredLogs. repeat case_bool_decide; auto using List_filter_idemp.
  - intros button label count Hin. unfold LogsView.filterButtons in Hin.
    repeat (apply elem_of_cons in Hin as [[= -> -> ->] | Hin]; [done |]).
    by apply elem_of_nil in Hin.
  - intros log [_ Hf]%Hforwarded. unfold LogsScreen.getStatusLabel. by rewrite Hf.
  - intros Hlabel. destruct (LogsScreen.forwarded log) eqn:E; [| done].
    unfold LogsScreen.getStatusLabel in Hlabel. rewrite E in Hlabel. discriminate.
  - intros Hf. apply Hfailed in H as [_ Hs].
    unfold LogsScreen.getStatusLabel. rewrite Hf. by rewrite bool_decide_eq_true_2.
Qed.

(** A delivery that failed and was then forwarded is counted and listed
    under Failed, and shown there with the Forwarded label. *)
Example failed_filter_shows_forwarded_label :
  let log := LogsScreen.Log "7" "BANK" "Balance" "2024-05-01T09:30:00Z"
               true (Some "2024-05-01T09:31:00Z") "failed" None in
  LogsScreen.getFilteredLogs "failed" [log] = [log]
  /\ LogsScreen.getStatusLabel log = "Forwarded".
Proof. by vm_compute. Qed.

(** X2. What [formatDate] prints depends on the whole days elapsed, not on
    the calendar: the time of day for less than 24 hours, Yesterday from 24
    to 48 hours, the number of days from 2 to 6 days, the date from 7 days
    on and for an invalid date; a date in the future prints a negative
    number of days. *)
Theorem formatDate_ranges (c : LogsView.clock) (dateString : string) :
  let printed := LogsView.formatDate c dateString in
  let day := LogsView.day_ms in
  (LogsView.Date_getTime c dateString = None ->
   printed = LogsView.toLocaleDateString c None)
  /\ (forall date,
        LogsView.Date_getTime c dateString = Some date ->
        let elapsed := LogsView.now_ms c - date in
        (0 <= elapsed < day -> printed = LogsView.toLocaleTimeString c date)
        /\ (day <= elapsed < 2 * day -> printed = "Yesterday")
        /\ (2 * day <= elapsed < 7 * day ->
            printed = pretty (elapsed / day) +:+ " days ago" /\ 2 <= elapsed / day <= 6)
        /\ (7 * day <= elapsed -> printed = LogsView.toLocaleDateString c (Some date))
        /\ (elapsed < 0 ->
            printed = pretty (elapsed / day) +:+ " days ago" /\ elapsed / day < 0)).
Proof.
  cbn zeta. unfold LogsView.formatDate. split; [by intros -> |].
  intros date ->. unfold LogsView.diffDays, LogsView.day_ms.
  change (1000 * 60 * 60 * 24) with 86400000.
  generalize (LogsView.now_ms c - date). intros elapsed.
  pose proof (Z.div_mod elapsed 86400000 ltac:(lia)) as Hdiv.
  pose proof (Z.mod_pos_bound elapsed 86400000 ltac:(lia)) as Hmod.
  repeat split; intros;
    repeat match goal with
           | |- context [?a =? ?b] => destruct (Z.eqb_spec a b)
           | |- context [?a <? ?b] => destruct (Z.ltb_spec a b)
           end; first [done | lia | exfalso; lia].
Qed.

(** An entry of 23:00 read at 01:00 the next day shows its time, and one of
    an hour from now shows as [-1 days ago]. *)
Example formatDate_examples :
  LogsView.formatDate sample_clock "1714557600000" = "time 1714557600000"
  /\ LogsView.formatDate sample_clock "1714478400000" = "Yesterday"
  /\ LogsView.formatDate sample_clock "1714305600000" = "3 days ago"
  /\ LogsView.formatDate sample_clock "1714568400000" = "-1 days ago"
  /\ LogsView.formatDate sample_clock "yesterday" = "Invalid Date".
Proof. by vm_compute. Qed.

(** ** The filters screen: create, update, reload *)



Lemma saveFilter_validated (h : host) (s : FiltersScreen.state) m url body :
  EFetch m url body ∈ events (FiltersScreen.saveFilter h s s) ->
  (exists text, FiltersScreen.name (FiltersScreen.formData s) = VStr text
                /\ whitespace_only text = false)
  /\ (is_str (FiltersScreen.filter_type (FiltersScreen.formData s)) "all" = false ->
      exists text, FiltersScreen.filter_value (FiltersScreen.formData s) = VStr text
                   /\ whitespace_only text = false).
Proof.
  run_cases; intros Hin.
  all: repeat (apply elem_of_cons in Hin as [Hin | Hin]; simplify_eq/=).
  all: try (by apply elem_of_nil in Hin).
  all: split; [by eapply call_trim_nonblank |].
  all: try congruence; intros _; by eapply call_trim_nonblank.
Qed.

(** X4. Opening a filter for editing and saving the form as it opened sends
    the filter back to its own id: a PUT to /api/filters/ followed by the id,
    with the name and the type of the filter, its value (null when the type
    is all), and enabled: true whatever the filter's enabled flag was, so
    that saving an edit of a disabled filter enables it. *)
Theorem edit_then_save (h : host) (filter : gmap string value) (s : FiltersScreen.state)
    m url body :
  let opened := final (FiltersScreen.openEditModal h (VObj filter) s) in
  EFetch m url body ∈ events (FiltersScreen.saveFilter h opened opened) ->
  m <> GET ->
  FiltersScreen.modalVisible opened = true
  /\ m = PUT
  /\ url = backendUrl h +:+ "/api/filters/" +:+ ToString h (prop filter "id")
  /\ exists payload,
       body = Some (VObj payload)
       /\ prop payload "name" = prop filter "name"
       /\ prop payload "filter_type" = prop filter "filter_type"
       /\ prop payload "filter_value"
          = (if is_str (prop filter "filter_type") "all" then VNull
             else prop filter "filter_value")
       /\ prop payload "enabled" = VBool true.
Proof.
  cbn zeta.
  assert (Hopened : final (FiltersScreen.openEditModal h (VObj filter) s)
                    = FiltersScreen.State (FiltersScreen.filters s) (FiltersScreen.loading s)
                        true (VObj filter)
                        (FiltersScreen.Form (prop filter "name") (prop filter "filter_type")
                           (or_else (prop filter "filter_value") (VStr "")))).
  { run_cases; by simplify_eq/=. }
  rewrite Hopened. clear Hopened. intros Hin Hm.
  split; [done |].
  assert (Hvalue : is_str (prop filter "filter_type") "all" = false ->
                   or_else (prop filter "filter_value") (VStr "") = prop filter "filter_value").
  { intros Htype.
    destruct (saveFilter_validated _ _ _ _ _ Hin) as [_ Hvalid].
    destruct (Hvalid Htype) as (text & Htext & Hblank). cbn in Htext.
    unfold or_else in *. destruct (truthy (prop filter "filter_value")); [done |].
    by simplify_eq. }
  assert (Hsent : m = PUT
                  /\ url = backendUrl h +:+ "/api/filters/" +:+ ToString h (prop filter "id")
                  /\ body = Some (VObj (FiltersScreen.filterData
                                          (FiltersScreen.Form (prop filter "name")
                                             (prop filter "filter_type")
                                             (or_else (prop filter "filter_value") (VStr "")))))).
  { revert Hin. run_cases; intros Hin.
    all: repeat (apply elem_of_cons in Hin as [Hin | Hin]; simplify_eq/=).
    all: try (by apply elem_of_nil in Hin).
    all: done. }
  destruct Hsent as (-> & -> & ->).
  split; [done |]. split; [done |].
  eexists. split; [done |].
  destruct (filterData_props (FiltersScreen.Form (prop filter "name")
                                (prop filter "filter_type")
                                (or_else (prop filter "filter_value") (VStr ""))))
    as (Pn & Pt & Pv & Pe).
  cbn in Pn, Pt, Pv.
  repeat split; try done.
  rewrite Pv. destruct (is_str (prop filter "filter_type") "all") eqn:E; [done |].
  by apply Hvalue.
Qed.

Lemma edit_then_save_witness :
  let opened :=
    final (FiltersScreen.openEditModal Examples.accepting (VObj disabled_filter)
             FiltersScreen.initial) in
  exists payload,
    EFetch PUT "http://localhost:8001/api/filters/f1" (Some (VObj payload))
      ∈ events (FiltersScreen.saveFilter Examples.accepting opened opened)
    /\ prop payload "enabled" = VBool true
    /\ prop disabled_filter "enabled" = VBool false.
Proof.
  cbn zeta.
  assert (Hin : EFetch PUT "http://localhost:8001/api/filters/f1"
                  (Some (VObj (FiltersScreen.filterData
                                 (FiltersScreen.Form (VStr "Bank alerts") (VStr "keyword")
                                    (VStr "bank")))))
                ∈ events (FiltersScreen.saveFilter Examples.accepting
                            (final (FiltersScreen.openEditModal Examples.accepting
                                      (VObj disabled_filter) FiltersScreen.initial))
                            (final (FiltersScreen.openEditModal Examples.accepting
                                      (VObj disabled_filter) FiltersScreen.initial)))).
  { vm_compute. apply list_elem_of_here. }
  destruct (edit_then_save Examples.accepting disabled_filter FiltersScreen.initial
              _ _ _ Hin ltac:(discriminate))
    as (_ & _ & _ & payload & [= <-] & _ & _ & _ & Henabled).
  eexists. split; [exact Hin |]. split; [exact Henabled | reflexivity].
Defined.

(** Membership of a request in a written-out list, or its refutation. *)
Ltac listed H :=
  repeat (apply elem_of_cons in H as [H | H]);
  try (by apply elem_of_nil in H);
  try (by simplify_eq).

(** X5. After a save, a toggle or a delete of a filter, the list is loaded
    again exactly when the backend answered the change with an ok response:
    a rejected or refused change, or one stopped by validation, reloads
    nothing. *)
Theorem reload_iff_accepted (h : host) (i : App.invocation) :
  mutates_filters i = true ->
  ((GET, backendUrl h +:+ "/api/filters") ∈ App.requests (App.trace h i)
   <-> Exists (accepted h) (App.trace h i)).
Proof.
  destruct i; try discriminate; intros _; cbn [App.trace].
  all: run_cases; cbn; split; intros H.
  all: try (listed H; fail).
  all: try (scan H; fail).
  all: try in_list.
  all: repeat first [ apply Exists_cons_hd; cbn; by eauto | apply Exists_cons_tl ].
Qed.

Lemma reload_iff_accepted_witness :
  (GET, "http://localhost:8001/api/filters")
    ∈ App.requests (App.trace Examples.accepting
                      (App.Filters_toggle (VObj disabled_filter) FiltersScreen.initial))
  /\ (GET, "http://localhost:8001/api/filters")
       ∉ App.requests (App.trace Examples.refusing
                         (App.Filters_toggle (VObj disabled_filter) FiltersScreen.initial)).
Proof.
  split.
  - apply (reload_iff_accepted Examples.accepting
             (App.Filters_toggle (VObj disabled_filter) FiltersScreen.initial) eq_refl).
    apply Exists_cons_hd. cbn. eexists. split; reflexivity.
  - intros Hin.
    apply (reload_iff_accepted Examples.refusing
             (App.Filters_toggle (VObj disabled_filter) FiltersScreen.initial) eq_refl) in Hin.
    vm_compute in Hin.
    repeat (apply Exists_cons in Hin as [Hin | Hin]);
      [destruct Hin as (response & [= <-] & Hok); discriminate Hok | done
      | by apply Exists_nil in Hin].
Defined.

(** ** Confirmations *)


(** ** The settings screen *)

(** X7. A settings switch is optimistic: the new value is in the state
    whether or not the write to the storage succeeds, the other settings
    are untouched, and what is written under app_settings is the settings
    object of the new state; a rejected write shows an error alert and
    takes nothing back. *)
Theorem updateSetting_optimistic (h : host) (key : SettingsScreen.setting) (v : bool)
    (s : SettingsScreen.state) :
  let run := SettingsScreen.updateSetting h key v s s in
  let updated := <[SettingsScreen.setting_key key := VBool v]> (SettingsScreen.settings s) in
  SettingsScreen.settings (final run) = updated
  /\ prop (SettingsScreen.settings (final run)) (SettingsScreen.setting_key key) = VBool v
  /\ (forall k, k <> SettingsScreen.setting_key key ->
                SettingsScreen.settings (final run) !! k = SettingsScreen.settings s !! k)
  /\ ESetItem "app_settings" (JSON_stringify h (VObj updated)) ∈ events run
  /\ ((exists error, setItem h "app_settings" (JSON_stringify h (VObj updated)) = inl error) ->
      existsb is_error_alert (events run) = true)
  /\ outcome run = inr tt.
Proof.
  cbn zeta. run_cases; cbn.
  all: repeat split; try done; try in_list.
  all: try (unfold prop; by rewrite lookup_insert_eq).
  all: try (intros k Hk; by rewrite lookup_insert_ne).
  all: first [ by destruct u | intros [error Herror]; congruence ].
Qed.

Example updateSetting_keeps_failed_write :
  let run := SettingsScreen.updateSetting Examples.offline SettingsScreen.autoStart true
               SettingsScreen.initial SettingsScreen.initial in
  prop (SettingsScreen.settings (final run)) "autoStart" = VBool true
  /\ events run = [ ESetItem "app_settings" "{}";
                    EConsoleError "Failed to save setting:" (ErrorObj "Storage unavailable");
                    EAlert "Error" (VStr "Failed to save setting") [] ].
Proof. by vm_compute. Qed.

Lemma insert_union_self (k : string) (v : value) (m : gmap string value) :
  <[k := v]> m ∪ m = <[k := v]> m.
Proof.
  apply map_eq. intros i. rewrite lookup_union.
  destruct (decide (k = i)) as [-> | Hne].
  - rewrite lookup_insert_eq. by destruct (m !! i).
  - rewrite lookup_insert_ne by done. by destruct (m !! i).
Qed.

(** X8. Loading the settings lays the stored object over the settings of
    the screen: a stored key wins, a key that is not stored keeps its
    value.  So what a switch wrote comes back as it was written, given that
    the storage returns it and [JSON.parse] inverts [JSON.stringify] on it.
    With nothing stored, an empty item, a rejected read or an item that does
    not parse, the settings stay as they are. *)
Theorem loadSettings_merges (h : host) (s : SettingsScreen.state) :
  let after := SettingsScreen.settings (final (SettingsScreen.loadSettings h s s)) in
  (forall text saved,
      getItem h "app_settings" = inr (Some text) ->
      text <> "" ->
      JSON_parse h text = inr (VObj saved) ->
      after = saved ∪ SettingsScreen.settings s
      /\ (forall k, after !! k = match saved !! k with
                                 | Some v => Some v
                                 | None => SettingsScreen.settings s !! k
                                 end)
      /\ (forall key v,
            saved = <[SettingsScreen.setting_key key := VBool v]> (SettingsScreen.settings s) ->
            after = saved))
  /\ (getItem h "app_settings" = inr None
      \/ getItem h "app_settings" = inr (Some "")
      \/ (exists error, getItem h "app_settings" = inl error)
      \/ (exists text error, getItem h "app_settings" = inr (Some text)
                             /\ JSON_parse h text = inl error) ->
      after = SettingsScreen.settings s).
Proof.
  cbn zeta. split.
  - intros text saved Hget Htext Hparse.
    assert (Hafter : SettingsScreen.settings (final (SettingsScreen.loadSettings h s s))
                     = saved ∪ SettingsScreen.settings s).
    { run_cases; simplify_eq/=; agree; try done.
      all: match goal with H : negb (bool_decide _) = false |- _ =>
             apply negb_false_iff, bool_decide_eq_true in H; done end. }
    rewrite Hafter. split; [done |]. split.
    + intros k. rewrite lookup_union. by destruct (saved !! k), (SettingsScreen.settings s !! k).
    + intros key v ->. apply insert_union_self.
  - intros Hcase. run_cases; cbn; try done.
    all: destruct Hcase as [? | [? | [[? ?] | (? & ? & ? & ?)]]]; simplify_eq/=; congruence.
Qed.

(** ** The storage *)

(** X9. The storage keys of the application: every key any screen reads or
    writes is one of the five that Clear All Data removes, and the only keys
    any screen writes are service_status and app_settings; email_config,
    sms_filters and sms_logs, which the dashboard reads, are written by no
    screen. *)
Theorem storage_keys_covered (h : host) (i : App.invocation) :
  Forall storage_discipline (App.trace h i).
Proof.
  destruct i; cbn [App.trace]; try (repeat constructor; fail).
  all: match goal with
       | |- Forall _ (events (?m ?s)) => refine ((_ : emits_only storage_discipline m) s)
       end.
  all: walk; cbn; try exact I; try reflexivity; try in_list; auto.
Qed.

Example dashboard_reads_what_nothing_writes :
  App.trace Examples.accepting (App.Home_onMount HomeScreen.initial)
  = [ EGetItem "email_config"; EGetItem "sms_filters"; EGetItem "sms_logs";
      EGetItem "service_status" ].
Proof. by vm_compute. Qed.

(** ** The service switch *)

(** X10. The service switch writes the opposite of the state shown before it
    changes the state: when the write resolves the state flips and the new
    status is announced, when it is rejected the screen stays as it was and
    an error alert is shown.  Reading the written word back sets the state
    the switch had set; with nothing stored, or any text other than
    [running], the service shows as stopped. *)
Theorem toggleService_then_check (h : host) (s : HomeScreen.state) :
  let target := negb (HomeScreen.isServiceRunning s) in
  let word := if target then "running" else "stopped" in
  let run := HomeScreen.toggleService h s s in
  (exists rest, events run = ESetItem "service_status" word :: rest)
  /\ (setItem h "service_status" word = inr tt ->
      final run = HomeScreen.State (HomeScreen.stats s) target
      /\ existsb is_error_alert (events run) = false
      /\ EAlert "Service Status" (VStr ("SMS forwarding service is now " +:+ word)) ["OK"]
           ∈ events run)
  /\ ((exists error, setItem h "service_status" word = inl error) ->
      final run = s
      /\ events run = [ESetItem "service_status" word;
                       EAlert "Error" (VStr "Failed to toggle service") []])
  /\ (forall device before item,
        getItem device "service_status" = inr item ->
        let shown := HomeScreen.isServiceRunning
                       (final (HomeScreen.checkServiceStatus device before)) in
        (item = Some word -> shown = target)
        /\ (item <> Some "running" -> shown = false)).
Proof.
  cbn zeta. split; [| split; [| split]].
  - run_cases; by eexists.
  - intros Hwrite. run_cases; simplify_eq/=; agree.
    all: destruct (HomeScreen.isServiceRunning s); cbn; repeat split; try done; in_list.
  - intros [error Hwrite]. run_cases; simplify_eq/=; agree; done.
  - intros device before item Hread. split.
    + intros ->. run_cases; simplify_eq/=; agree.
      by destruct (HomeScreen.isServiceRunning s).
    + intros Hitem. run_cases; simplify_eq/=; agree.
      destruct item as [text |]; cbn; [| done].
      apply bool_decide_eq_false. intros Heq. apply Hitem. congruence.
Qed.

Example toggleService_offline :
  HomeScreen.isServiceRunning
    (final (HomeScreen.toggleService Examples.offline HomeScreen.initial HomeScreen.initial))
  = false
  /\ HomeScreen.isServiceRunning
       (final (HomeScreen.toggleService Examples.accepting HomeScreen.initial HomeScreen.initial))
     = true.
Proof. by vm_compute. Qed.

(** ** The dashboard, all or nothing *)

(** X11. The dashboard statistics are replaced together or not at all.  When
    a read is rejected, a stored list does not parse, or the stored logs are
    not an array, the screen keeps every figure it showed, the email status
    included, and only the console is written.  Otherwise the email status
    is true exactly when some non-empty text is stored under email_config,
    whatever that text is, and Active Filters is the [length] of the stored
    filters, enabled or not. *)
Theorem dashboard_all_or_nothing (h : host) (s : HomeScreen.state) :
  let run := HomeScreen.loadDashboardData h s in
  let after := final run in
  HomeScreen.isServiceRunning after = HomeScreen.isServiceRunning s
  /\ ((after = s /\ Exists is_console_error (events run))
      \/ (exists emailConfig filters logs parsedFilters items,
            getItem h "email_config" = inr emailConfig
            /\ getItem h "sms_filters" = inr filters
            /\ getItem h "sms_logs" = inr logs
            /\ HomeScreen.parse_or_empty h filters = inr parsedFilters
            /\ HomeScreen.parse_or_empty h logs = inr (VArr items)
            /\ HomeScreen.emailConfigured (HomeScreen.stats after)
               = match emailConfig with
                 | Some text => negb (bool_decide (text = ""))
                 | None => false
                 end
            /\ getProp (type_error h) parsedFilters "length"
               = inr (HomeScreen.activeFilters (HomeScreen.stats after))
            /\ HomeScreen.totalSMS (HomeScreen.stats after) = VInt (Z.of_nat (length items))
            /\ Forall (fun e => is_console_error e = false) (events run)))
  /\ (forall key text error,
        key = "sms_filters" \/ key = "sms_logs" ->
        getItem h key = inr (Some text) -> text <> "" ->
        JSON_parse h text = inl error ->
        after = s).
Proof.
  cbn zeta. split; [| split].
  - run_cases; by destruct s.
  - run_cases; simplify_eq/=.
    all: try (left; split; [by destruct s | repeat constructor]; fail).
    all: right.
    all: match goal with
         | H : HomeScreen.Array_filter _ ?v _ = inr _ |- _ => destruct v; try discriminate H
         end.
    all: do 5 eexists; repeat split; try eassumption; try reflexivity.
    + by destruct o.
    + cbn in *. by simplify_eq.
    + by repeat constructor.
  - intros key text error Hkey Hread Htext Hparse.
    assert (Hfail : HomeScreen.parse_or_empty h (Some text) = inl error).
    { unfold HomeScreen.parse_or_empty. cbn.
      by rewrite (bool_decide_eq_false_2 _ Htext). }
    destruct Hkey as [-> | ->]; run_cases; simplify_eq/=; agree; try by destruct s.
Qed.

(** With a configuration stored and the stored logs cut short, the dashboard
    goes on showing Email Status as not configured. *)
Example dashboard_corrupt_logs :
  let device :=
    Examples.phone (fun _ => inl (ErrorObj "Network request failed"))
      (fun key => inr (Some (if bool_decide (key = "sms_logs") then "[{" else "[]")))
      (inr tt) in
  final (HomeScreen.loadDashboardData device HomeScreen.initial) = HomeScreen.initial
  /\ HomeScreen.emailConfigured (HomeScreen.stats HomeScreen.initial) = false.
Proof. by vm_compute. Qed.

(** ** The test of the email configuration *)



(** ** The provider presets *)

Lemma preset_shape (p : EmailConfigScreen.provider) :
  exists server,
    server <> ""
    /\ EmailConfigScreen.presets !! EmailConfigScreen.provider_name p
       = Some (<["smtp_server" := VStr server]> (
               <["smtp_port" := VInt 587]> (
               <["use_tls" := VBool true]> ∅))).
Proof.
  destruct p;
    [exists "smtp.gmail.com" | exists "smtp-mail.outlook.com" | exists "smtp.mail.yahoo.com"];
    split; first [done | by vm_compute].
Qed.

(** X13. A provider preset writes the server, the port and the TLS flag and
    nothing else: every other field of the form, the credentials and the
    recipient among them, and the tab stay as they are.  The port becomes
    587 and TLS is switched on whatever was typed, the server is not empty,
    and applying the same preset again changes nothing. *)
Theorem preset_keeps_other_fields (p : EmailConfigScreen.provider) (s : EmailConfigScreen.state) :
  let run := EmailConfigScreen.getProviderPresets p s s in
  let after := final run in
  (forall k, k ∉ preset_fields ->
             EmailConfigScreen.config after !! k = EmailConfigScreen.config s !! k)
  /\ prop (EmailConfigScreen.config after) "smtp_port" = VInt 587
  /\ prop (EmailConfigScreen.config after) "use_tls" = VBool true
  /\ (exists server, prop (EmailConfigScreen.config after) "smtp_server" = VStr server
                     /\ server <> "")
  /\ EmailConfigScreen.activeTab after = EmailConfigScreen.activeTab s
  /\ final (EmailConfigScreen.getProviderPresets p after after) = after
  /\ Forall (fun e => is_io e = false) (events run).
Proof.
  cbn zeta. destruct (preset_shape p) as (server & Hserver & Hpreset).
  unfold EmailConfigScreen.getProviderPresets. rewrite Hpreset.
  cbv [mbind M_bind bind EmailConfigScreen.setConfig set Alert_alert emit]. cbn.
  repeat split.
  - intros k Hk. rewrite lookup_union.
    rewrite !lookup_insert_ne, lookup_empty.
    + by destruct (EmailConfigScreen.config s !! k).
    + intros <-. apply Hk. in_list.
    + intros <-. apply Hk. in_list.
    + intros <-. apply Hk. in_list.
  - unfold prop. erewrite lookup_union_Some_l; [done |].
    rewrite lookup_insert_ne by done. by rewrite lookup_insert_eq.
  - unfold prop. erewrite lookup_union_Some_l; [done |].
    do 2 rewrite lookup_insert_ne by done. by rewrite lookup_insert_eq.
  - exists server. split; [| done]. unfold prop.
    erewrite lookup_union_Some_l; [done |]. by rewrite lookup_insert_eq.
  - f_equal. by rewrite (assoc_L (∪)), (idemp_L (∪)).
  - by repeat constructor.
Qed.

Example preset_overrides_typed_port :
  let typed := final (EmailConfigScreen.onChangePort "465" Examples.smtp_form Examples.smtp_form) in
  prop (EmailConfigScreen.config typed) "smtp_port" = VInt 465
  /\ prop (EmailConfigScreen.config
             (final (EmailConfigScreen.getProviderPresets EmailConfigScreen.gmail typed typed)))
          "smtp_port" = VInt 587.
Proof. by vm_compute. Qed.

(** ** What the list loaders keep *)


(** A backend that answers with an error status code and an error object:
    the object is taken for the list of filters, and no alert is shown. *)
Example loadFilters_takes_error_body :
  let run := FiltersScreen.loadFilters Examples.refusing FiltersScreen.initial in
  FiltersScreen.filters (final run) = VObj {["detail" := VStr "Internal Server Error"]}
  /\ existsb is_alert (events run) = false.
Proof. by vm_compute. Qed.

(** ** The test message *)

Lemma trim_blank (text : string) : bool_decide (trim text = "") = whitespace_only text.
Proof.
  destruct (whitespace_only text) eqn:E.
  - by apply bool_decide_eq_true, trim_empty.
  - apply bool_decide_eq_false. rewrite trim_empty. congruence.
Qed.

(** X15. A test message is sent exactly when neither the sender nor the
    content is white space only; it carries both as typed, not trimmed, and
    the time of sending.  One alert follows the request: the result with its
    two buttons only under an ok status code, an error otherwise.  The form
    keeps what was typed, and sending never leaves the screen by itself. *)
Theorem sendTestSMS_sends_as_typed (h : host) (s : TestSMSScreen.state) :
  let run := TestSMSScreen.sendTestSMS h s s in
  let data := TestSMSScreen.testData s in
  let blank := whitespace_only (TestSMSScreen.sender data)
               || whitespace_only (TestSMSScreen.content data) in
  let message :=
    Request POST (backendUrl h +:+ "/api/sms/forward")
      (Some (VObj (<["sender" := VStr (TestSMSScreen.sender data)]> (
                   <["content" := VStr (TestSMSScreen.content data)]> (
                   <["timestamp" := VStr (now_iso h)]> ∅))))) in
  (blank = true ->
   events run = [EAlert "Validation Error"
                   (VStr "Please fill in both sender and content fields") []]
   /\ final run = s)
  /\ (blank = false ->
      exists title text buttons,
        events run = [EFetch (req_method message) (req_url message) (req_body message);
                      EAlert title text buttons]
        /\ ((title = "Test Result" /\ buttons = ["View Logs"; "OK"]
             /\ exists response, net h message = inr response /\ ok response = true)
            \/ (title = "Error" /\ buttons = []))
        /\ TestSMSScreen.loading (final run) = false)
  /\ TestSMSScreen.testData (final run) = data.
Proof.
  cbn zeta. unfold TestSMSScreen.sendTestSMS. rewrite !trim_blank.
  destruct (whitespace_only (TestSMSScreen.sender (TestSMSScreen.testData s))
            || whitespace_only (TestSMSScreen.content (TestSMSScreen.testData s))).
  - repeat split; try done. 
  - split; [done |]. split; [intros _ |].
    + run_cases; do 3 eexists; (split; [reflexivity |]); (split; [| done]);
        first [ right; by split | left; eauto ].
    + by run_cases.
Qed.

(** A sender typed with spaces around it is sent with them. *)
Example sendTestSMS_untrimmed :
  let typed := TestSMSScreen.State (TestSMSScreen.Data " BANK " "Balance") false in
  exists rest,
    events (TestSMSScreen.sendTestSMS Examples.accepting typed typed)
    = EFetch POST "http://localhost:8001/api/sms/forward"
        (Some (VObj (<["sender" := VStr " BANK "]> (
                     <["content" := VStr "Balance"]> (
                     <["timestamp" := VStr "2024-05-01T12:00:00.000Z"]> ∅)))))
      :: rest.
Proof. eexists. by vm_compute. Qed.

(** ** The network and the storage *)

(** X16. The screens split in two: the dashboard and the settings work on
    the storage of the device and send no request, the configuration, the
    filters, the logs and the test screen talk to the backend and touch no
    storage.  Editing a form does neither: nothing leaves the screen until
    Save, Test or Send is pressed. *)
Theorem network_and_storage_apart (h : host) (i : App.invocation) :
  Forall (fun e => (is_fetch e = true -> on_device i = false)
                   /\ (is_storage e = true -> on_device i = true)
                   /\ (is_io e = true -> edits_form i = false))
         (App.trace h i).
Proof.
  destruct i; cbn [App.trace on_device edits_form]; try (by repeat constructor).
  all: match goal with
       | |- Forall ?P (events (?m ?s)) => refine ((_ : emits_only P m) s)
       end.
  all: walk; cbn; try done.
Qed.

(** ** The tab after loading the configuration *)

(** X17. Loading the configuration changes the form and the tab together or
    leaves the screen as it was: when a configuration is loaded the tab
    becomes its email_type, or smtp when it has none, so a tab that names a
    method before the load names one after it, and the two busy flags are
    not touched. *)
Theorem loadEmailConfig_sets_tab (h : host) (s : EmailConfigScreen.state) :
  let after := final (EmailConfigScreen.loadEmailConfig h s) in
  (after = s
   \/ exists data_config email_type,
        truthy data_config = true
        /\ getProp (type_error h) data_config "email_type" = inr email_type
        /\ EmailConfigScreen.config after = <["smtp_password" := VStr ""]> (spread data_config)
        /\ EmailConfigScreen.activeTab after = or_else email_type (VStr "smtp"))
  /\ (truthy (EmailConfigScreen.activeTab s) = true ->
      truthy (EmailConfigScreen.activeTab after) = true)
  /\ EmailConfigScreen.loading after = EmailConfigScreen.loading s
  /\ EmailConfigScreen.testLoading after = EmailConfigScreen.testLoading s.
Proof.
  cbn zeta. split; [| split; [| split]].
  - run_cases; cbn; try (left; by destruct s).
    all: try (right; do 2 eexists; repeat split; eauto; fail).
    all: match goal with
         | H : truthy ?v = true, H' : getProp _ ?v _ = inl _ |- _ => by destruct v
         end.
  - intros Htab. run_cases; cbn; try done.
    all: unfold or_else.
    all: match goal with |- context [if truthy ?v then _ else _] => by destruct (truthy v) eqn:E end.
  - by run_cases.
  - by run_cases.
Qed.

(** ** The mount effect of the dashboard *)

(** X18. On mount the dashboard starts both loaders before either resumes:
    the four reads go out first, in the order email_config, sms_filters,
    sms_logs, service_status, whatever the first ones answer, and no other
    read or write follows.  The screen ends as if the two loaders had run
    one after the other. *)
Theorem onMount_runs_both_loaders (h : host) (s : HomeScreen.state) :
  let run := HomeScreen.onMount h s in
  (exists rest,
      events run = [EGetItem "email_config"; EGetItem "sms_filters"; EGetItem "sms_logs";
                    EGetItem "service_status"] ++ rest
      /\ Forall (fun e => is_io e = false) rest)
  /\ final run
     = final (HomeScreen.checkServiceStatus h (final (HomeScreen.loadDashboardData h s)))
  /\ HomeScreen.stats (final run) = HomeScreen.stats (final (HomeScreen.loadDashboardData h s))
  /\ HomeScreen.isServiceRunning (final run)
     = HomeScreen.isServiceRunning (final (HomeScreen.checkServiceStatus h s))
  /\ outcome run = inr tt.
Proof.
  cbn zeta. repeat split.
  - run_cases; eexists; (split; [reflexivity |]); by repeat constructor.
  - by run_cases.
  - by run_cases.
  - by run_cases.
  - by run_cases.
Qed.

(** ** Switching and deleting a filter *)

(** X19. Switching a filter sends one PUT to the filter's own id whose body
    holds the negated [enabled] flag and nothing else of the filter;
    confirming a deletion sends one DELETE, without a body, to the same
    address.  The only request that can follow is the reload of the list.
    For a filter without readable properties nothing is sent, and the
    error alert is shown. *)
Theorem toggle_and_delete_by_id (h : host) (filter : value) (s : FiltersScreen.state) :
  let address id := backendUrl h +:+ "/api/filters/" +:+ ToString h id in
  let reload_only rest :=
    Forall (fun e => is_fetch e = true -> e = EFetch GET (backendUrl h +:+ "/api/filters") None)
           rest in
  (forall id enabled,
      getProp (type_error h) filter "id" = inr id ->
      getProp (type_error h) filter "enabled" = inr enabled ->
      exists rest,
        events (FiltersScreen.toggleFilter h filter s)
        = EFetch PUT (address id) (Some (VObj {["enabled" := VBool (negb (truthy enabled))]}))
          :: rest
        /\ reload_only rest)
  /\ (forall id,
        getProp (type_error h) filter "id" = inr id ->
        exists rest,
          events (FiltersScreen.onConfirmDelete h filter s)
          = EFetch DELETE (address id) None :: rest
          /\ reload_only rest)
  /\ (forall error,
        getProp (type_error h) filter "id" = inl error ->
        events (FiltersScreen.toggleFilter h filter s)
        = [EAlert "Error" (VStr "Failed to toggle filter") []]
        /\ events (FiltersScreen.onConfirmDelete h filter s)
           = [EAlert "Error" (VStr "Failed to delete filter") []]).
Proof.
  cbn zeta. split; [| split].
  - intros id enabled Hid Henabled.
    run_cases; simplify_eq/=; agree; eexists; (split; [reflexivity |]).
    all: repeat constructor; cbn; done.
  - intros id Hid.
    run_cases; simplify_eq/=; agree; eexists; (split; [reflexivity |]).
    all: repeat constructor; cbn; done.
  - intros error Hid. split; run_cases; simplify_eq/=; agree; done.
Qed.

Example toggle_sends_flag_only :
  exists rest,
    events (FiltersScreen.toggleFilter Examples.accepting (VObj disabled_filter)
              FiltersScreen.initial)
    = EFetch PUT "http://localhost:8001/api/filters/f1" (Some (VObj {["enabled" := VBool true]}))
      :: rest.
Proof. eexists. by vm_compute. Qed.

(** ** Saving a loaded configuration *)

(** X20. A configuration that was just loaded cannot be saved from the SMTP
    tab as it is: the load blanks the password and the save insists on one,
    so pressing Save shows a validation alert and sends nothing until the
    password is typed again. *)
Theorem loaded_smtp_needs_password (h h' : host) (s : EmailConfigScreen.state) :
  let after := final (EmailConfigScreen.loadEmailConfig h s) in
  let run := EmailConfigScreen.saveEmailConfig h' after after in
  EmailConfigScreen.config after <> EmailConfigScreen.config s ->
  is_str (EmailConfigScreen.activeTab after) "smtp" = true ->
  (exists text, events run = [EAlert "Validation Error" text []])
  /\ final run = after.
Proof.
  cbn zeta. intros Hloaded Htab.
  assert (Hpassword : prop (EmailConfigScreen.config
                              (final (EmailConfigScreen.loadEmailConfig h s)))
                        "smtp_password" = VStr "").
  { revert Hloaded. clear Htab.
    run_cases; cbn; intros Hloaded; try done.
    all: unfold prop; by rewrite lookup_insert_eq. }
  unfold EmailConfigScreen.saveEmailConfig. rewrite Htab, Hpassword. cbn.
  rewrite !orb_true_r.
  destruct (negb (truthy (prop _ "recipient_email"))); cbn; eauto.
Qed.

Lemma loaded_smtp_needs_password_witness :
  let after := final (EmailConfigScreen.loadEmailConfig smtp_backend EmailConfigScreen.initial) in
  (exists text, events (EmailConfigScreen.saveEmailConfig smtp_backend after after)
                = [EAlert "Validation Error" text []])
  /\ final (EmailConfigScreen.saveEmailConfig smtp_backend after after) = after.
Proof.
  apply (loaded_smtp_needs_password smtp_backend smtp_backend EmailConfigScreen.initial).
  - intros H. apply (f_equal (fun m => m !! "recipient_email")) in H.
    vm_compute in H. discriminate H.
  - by vm_compute.
Defined.
